(** * Casa Fresca: the temperature dashboard

    A shallow embedding of the logic of the dashboard page
    ([src/app/page.tsx] and its earlier iterations): the window
    recommendation, the "than yesterday" delta with its nearest-reading
    lookup, the time-window filter of the chart, and the text the page
    renders for the latest values.

    The page is JavaScript, so the embedding starts with the part of the
    language the page relies on: IEEE 754 binary64 numbers, [parseFloat],
    [Number.prototype.toFixed] and [Date]. *)

From Stdlib Require Import ZArith NArith List Bool Ascii String Lia.
From Stdlib Require Import Sorting.Sorted.
From Stdlib Require Import Numbers.DecimalString.
From Stdlib Require Import Floats.SpecFloat.
Import ListNotations.

Local Open Scope string_scope.
Local Open Scope Z_scope.

(** ** JavaScript numbers *)

Module JS.

(** A Number is a binary64 value; [spec_float] is the executable IEEE 754
    model of the standard library (no payload on NaN, as in JavaScript). *)
Definition number : Type := spec_float.

Definition prec : Z := 53.
Definition emax : Z := 1024.

Definition NaN : number := S754_nan.

(** [a - b], unary [-a], [Math.abs(a)], [a < b] and [a > b]. *)
Definition sub (a b : number) : number := SFsub prec emax a b.
Definition neg (a : number) : number := SFopp a.
Definition abs (a : number) : number := SFabs a.
Definition lt (a b : number) : bool := SFltb a b.
Definition gt (a b : number) : bool := SFltb b a.

(** [a == b] on numbers. *)
Definition eqb (a b : number) : bool := SFeqb a b.

Definition zero : number := S754_zero false.

Definition isFinite (a : number) : bool :=
  match a with
  | S754_zero _ | S754_finite _ _ _ => true
  | S754_infinity _ | S754_nan => false
  end.

(** *** parseFloat

    Strings are sequences of code units below 256.  [parseFloat] drops
    leading white space and reads the longest prefix that is a
    [StrDecimalLiteral]; with no such prefix the result is [NaN]. *)

Definition isWhiteSpace (c : ascii) : bool :=
  let n := N_of_ascii c in
  ((9 <=? n) && (n <=? 13) || (n =? 32) || (n =? 160))%N.

Fixpoint trimStart (s : string) : string :=
  match s with
  | String c s' => if isWhiteSpace c then trimStart s' else s
  | EmptyString => s
  end.

Definition digitValue (c : ascii) : option N :=
  let n := N_of_ascii c in
  if ((48 <=? n) && (n <=? 57))%N then Some (n - 48)%N else None.

(** The longest run of decimal digits at the head of [s], accumulated on
    [acc]: the value, the number of digits read and the rest. *)
Fixpoint scanDigits (s : string) (acc : N) (count : nat) : N * nat * string :=
  match s with
  | String c s' =>
      match digitValue c with
      | Some d => scanDigits s' (acc * 10 + d)%N (S count)
      | None => (acc, count, s)
      end
  | EmptyString => (acc, count, s)
  end.

Definition isExponentIndicator (c : ascii) : bool :=
  let n := N_of_ascii c in ((n =? 101) || (n =? 69))%N.

Definition scanSign (s : string) : bool * string :=
  match s with
  | String c s' =>
      if (c =? "-")%char then (true, s')
      else if (c =? "+")%char then (false, s')
      else (false, s)
  | EmptyString => (false, s)
  end.

(** The value of the [ExponentPart] at the head of [s]; an indicator that
    no digit follows is not part of the literal. *)
Definition scanExponent (s : string) : Z :=
  match s with
  | String c s' =>
      if isExponentIndicator c then
        let '(sgn, s'') := scanSign s' in
        match scanDigits s'' 0%N 0%nat with
        | (_, O, _) => 0
        | (v, _, _) => if sgn then - Z.of_N v else Z.of_N v
        end
      else 0
  | EmptyString => 0
  end.

(** A [StrUnsignedDecimalLiteral]: [Infinity], or the decimal [m * 10^e]. *)
Inductive literal : Type :=
| LitInfinity
| LitDecimal (m : N) (e : Z).

(** The rest after a decimal point at the head of [s]. *)
Definition scanPoint (s : string) : option string :=
  match s with
  | String c s' => if (c =? ".")%char then Some s' else None
  | EmptyString => None
  end.

Definition scanUnsignedLiteral (s : string) : option literal :=
  if prefix "Infinity" s then Some LitInfinity
  else
    let '(i, ni, r1) := scanDigits s 0%N 0%nat in
    match scanPoint r1 with
    | Some r2 =>
        let '(f, nf, r3) := scanDigits r2 i 0%nat in
        match ni, nf with
        | O, O => None
        | _, _ => Some (LitDecimal f (scanExponent r3 - Z.of_nat nf))
        end
    | None =>
        match ni with
        | O => None
        | _ => Some (LitDecimal i (scanExponent r1))
        end
    end.

(** The Number value of [m * 10^e]: the nearest binary64, ties to even. *)
Definition fromDecimal (sgn : bool) (m : N) (e : Z) : number :=
  match m with
  | N0 => S754_zero sgn
  | Npos p =>
      match e with
      | Zneg k =>
          let '(q, e', l) :=
            SFdiv_core_binary prec emax (Zpos p) 0 (Z.pow_pos 10 k) 0 in
          binary_round_aux prec emax sgn q e' l
      | _ => binary_round prec emax sgn (Z.to_pos (Zpos p * 10 ^ e)) 0
      end
  end.

Definition parseFloat (s : string) : number :=
  let '(sgn, u) := scanSign (trimStart s) in
  match scanUnsignedLiteral u with
  | None => NaN
  | Some LitInfinity => S754_infinity sgn
  | Some (LitDecimal m e) => fromDecimal sgn m e
  end.

(** *** Number.prototype.toFixed(1) and Number::toString

    [decimalDigits n] is the decimal representation of the integer [n]. *)
Definition decimalDigits (n : N) : string :=
  NilEmpty.string_of_uint (N.to_uint n).

(** The integer [n] for which [n / 10 - m * 2^e] is as close to zero as
    possible, the larger one when there are two. *)
Definition tenths (m : positive) (e : Z) : N :=
  match e with
  | Zneg k => Z.to_N ((20 * Zpos m + 2 ^ Zpos k) / 2 ^ (Zpos k + 1))
  | _ => Z.to_N (10 * Zpos m * 2 ^ e)
  end.

(** One fraction digit: pad to two digits, then split before the last. *)
Definition withOneFractionDigit (d : string) : string :=
  let d' := if (String.length d <=? 1)%nat then "0" ++ d else d in
  let k := String.length d' in
  substring 0 (k - 1) d' ++ "." ++ substring (k - 1) 1 d'.

(** Number::toString of a number of magnitude at least [10^21], always in
    exponential form.  The digits are the shortest [s] (of [k] digits) with
    [s * 10^(n-k)] rounding to the number and, as the standard recommends
    for the last digit, among those the closest to it. *)
Definition roundTrips (x : positive) (e : Z) (c : N * Z) : bool :=
  SFeqb (fromDecimal false (fst c) (snd c)) (S754_finite false x e).

Definition candidates (v : Z) (d : Z) (k : Z) : list (N * Z) :=
  let q := v / 10 ^ (d - k) in
  ((Z.to_N q, d - k)
     :: (if q + 1 <? 10 ^ k then [(Z.to_N (q + 1), d - k)] else [])
     ++ (if k =? 1 then [(1%N, d)] else []))%list.

Definition errorOf (v : Z) (c : N * Z) : Z :=
  Z.abs (Z.of_N (fst c) * 10 ^ snd c - v).

Definition closest (v : Z) (cs : list (N * Z)) : option (N * Z) :=
  fold_left
    (fun best c =>
       match best with
       | None => Some c
       | Some b => if errorOf v c <? errorOf v b then Some c else best
       end)
    cs None.

Fixpoint shortest (fuel : nat) (x : positive) (e : Z) (v d k : Z)
  : option (N * Z) :=
  match fuel with
  | O => None
  | S fuel' =>
      match closest v (filter (roundTrips x e) (candidates v d k)) with
      | Some c => Some c
      | None => shortest fuel' x e v d (k + 1)
      end
  end.

Definition exponential (c : N * Z) : string :=
  let s := decimalDigits (fst c) in
  let k := String.length s in
  let n := snd c + Z.of_nat k in
  substring 0 1 s
    ++ (if (k =? 1)%nat then "" else "." ++ substring 1 (k - 1) s)
    ++ "e+" ++ decimalDigits (Z.to_N (n - 1)).

Definition toStringLarge (x : positive) (e : Z) : string :=
  let v := Zpos x * 2 ^ e in
  let d := Z.of_nat (String.length (decimalDigits (Z.to_N v))) in
  match shortest 17 x e v d 1 with
  | Some c => exponential c
  | None => exponential (Z.to_N v, 0)
  end.

Definition toFixed1 (x : number) : string :=
  match x with
  | S754_nan => "NaN"
  | S754_infinity s => if s then "-Infinity" else "Infinity"
  | S754_zero _ => "0.0"
  | S754_finite s m e =>
      (if s then "-" else "")
        ++ (if (0 <=? e) && (10 ^ 21 <=? Zpos m * 2 ^ e)
            then toStringLarge m e
            else withOneFractionDigit (decimalDigits (tenths m e)))
  end.

(** *** Date

    A time value is an integral number of milliseconds since the epoch, or
    NaN (here [None]) for an invalid date.  The time values of dates are
    below [2^53] in magnitude, where binary64 arithmetic on integers is
    exact, so they are computed in [Z].  Only the difference of two dates
    more than 285 000 years apart exceeds [2^53]; binary64 then rounds it to
    a neighbouring even integer, no smaller than [2^53], which [Z] does not
    follow.  Such a distance is never the least one of a scan that also
    meets a nearer reading, and the scan of the page always meets the
    latest reading, 24 hours from its target. *)
Definition time : Type := option Z.

(** A Date object with its time value, read by [d.getTime()]. *)
Record Date : Type := newDate { getTime : time }.

(** TimeClip: there is no date beyond 8.64e15 ms either side of the epoch. *)
Definition inRange (t : Z) : bool :=
  (-8640000000000000 <=? t) && (t <=? 8640000000000000).

Definition timeClip (t : time) : time :=
  match t with
  | Some x => if inRange x then Some x else None
  | None => None
  end.

(** [new Date(value)]: the constructor clips the value it is given, so a
    value out of range makes an Invalid Date. *)
Definition dateOf (value : time) : Date := newDate (timeClip value).

Definition tsub (a b : time) : time :=
  match a, b with
  | Some x, Some y => Some (x - y)
  | _, _ => None
  end.

Definition tabs (a : time) : time :=
  match a with
  | Some x => Some (Z.abs x)
  | None => None
  end.

(** [a < b] and [a >= b]: false as soon as one side is NaN. *)
Definition tlt (a b : time) : bool :=
  match a, b with
  | Some x, Some y => x <? y
  | _, _ => false
  end.

Definition tge (a b : time) : bool :=
  match a, b with
  | Some x, Some y => y <=? x
  | _, _ => false
  end.

(** [d1 >= d2] on Date objects compares their time values. *)
Definition dateGe (d1 d2 : Date) : bool := tge (getTime d1) (getTime d2).

(** The label [d.toLocaleString(locale, options)] draws: its text depends
    on the host's locale data and time zone, so it is kept symbolic. *)
Inductive localeString : Type :=
| toLocaleString (d : Date) (locale : string).

End JS.

(** ** The data model *)

(** A row of [casa_fresca_readings].  The page only ever reads the
    timestamp through [new Date(reading.timestamp)], whose parse of the
    stored text is left to the host: the field holds the time value that
    parse gives, NaN for a text that is no date.  The temperatures are the
    decimal strings the store sends. *)
Record TemperatureReading : Type := {
  id : string;
  timestamp_parsed : JS.time;
  outdoor_temp : string;
  indoor_temp : string;
  temp_differential : string
}.

(** [new Date(reading.timestamp)]: the Date made of the parsed value. *)
Definition timestamp (reading : TemperatureReading) : JS.Date :=
  JS.dateOf (timestamp_parsed reading).

(** [data[i]], [undefined] (here [None]) outside the array. *)
Definition at_index {A : Type} (data : list A) (i : Z) : option A :=
  if i <? 0 then None else nth_error data (Z.to_nat i).

(** ** The page: src/app/page.tsx *)

Definition latestReading (data : list TemperatureReading)
  : option TemperatureReading :=
  at_index data (Z.of_nat (List.length data) - 1).

Definition shouldCloseWindows (data : list TemperatureReading) : bool :=
  match latestReading data with
  | Some latest =>
      JS.gt (JS.parseFloat (outdoor_temp latest))
            (JS.parseFloat (indoor_temp latest))
  | None => false
  end.

Definition twentyFourHoursAgo (currentTime : JS.Date) : JS.Date :=
  JS.dateOf (JS.tsub (JS.getTime currentTime) (Some (24 * 60 * 60 * 1000))).

(** The callback of the reduce: keep [closest] unless [reading] is strictly
    nearer to the target. *)
Definition closer (target : JS.Date) (closest reading : TemperatureReading)
  : TemperatureReading :=
  let readingTime := timestamp reading in
  let closestTime := timestamp closest in
  let readingDiff :=
    JS.tabs (JS.tsub (JS.getTime readingTime) (JS.getTime target)) in
  let closestDiff :=
    JS.tabs (JS.tsub (JS.getTime closestTime) (JS.getTime target)) in
  if JS.tlt readingDiff closestDiff then reading else closest.

(** [data.reduce(closer, data[0])]: the whole array is scanned, starting
    from its first element. *)
Definition reading24hAgo (data : list TemperatureReading) (target : JS.Date)
  : option TemperatureReading :=
  match at_index data 0 with
  | Some first => Some (fold_left (closer target) data first)
  | None => None
  end.

Definition selected (isIndoor : bool) (reading : TemperatureReading) : string :=
  if isIndoor then indoor_temp reading else outdoor_temp reading.

Definition get24hDifference (data : list TemperatureReading)
  (currentTemp : string) (isIndoor : bool) : option JS.number :=
  match latestReading data with
  | None => None
  | Some latest =>
      let currentTime := timestamp latest in
      match reading24hAgo data (twentyFourHoursAgo currentTime) with
      | None => None
      | Some reading =>
          let current := JS.parseFloat currentTemp in
          let past := JS.parseFloat (selected isIndoor reading) in
          let diff := JS.sub past current in
          Some diff
      end
  end.

(** *** The chart data *)

Inductive TimeRange : Type := Range24h | Range7d.

(** [now] is the wall clock read by [new Date()]; it lies well inside the
    range of dates, where the constructor keeps the value it is given. *)
Definition cutoffTime (timeRange : TimeRange) (now : Z) : JS.Date :=
  match timeRange with
  | Range24h => JS.newDate (JS.tsub (Some now) (Some (24 * 60 * 60 * 1000)))
  | Range7d => JS.newDate (JS.tsub (Some now) (Some (7 * 24 * 60 * 60 * 1000)))
  end.

Definition filteredData (timeRange : TimeRange) (now : Z)
  (data : list TemperatureReading) : list TemperatureReading :=
  filter (fun reading => JS.dateGe (timestamp reading) (cutoffTime timeRange now))
    data.

Record ChartPoint : Type := {
  time_label : JS.localeString;
  outdoor : JS.number;
  indoor : JS.number
}.

Definition chartPoint (locale : string) (reading : TemperatureReading)
  : ChartPoint :=
  {| time_label := JS.toLocaleString (timestamp reading) locale;
     outdoor := JS.parseFloat (outdoor_temp reading);
     indoor := JS.parseFloat (indoor_temp reading) |}.

Definition formatData (timeRange : TimeRange) (now : Z)
  (data : list TemperatureReading) : list ChartPoint :=
  map (chartPoint "es-ES") (filteredData timeRange now data).

(** *** What the page renders *)

(** The two cells of the latest values: the expression before the unit. *)
Definition indoorValue (data : list TemperatureReading) : string :=
  match latestReading data with
  | Some latest => JS.toFixed1 (JS.parseFloat (indoor_temp latest))
  | None => "--"
  end.

Definition outdoorValue (data : list TemperatureReading) : string :=
  match latestReading data with
  | Some latest => JS.toFixed1 (JS.parseFloat (outdoor_temp latest))
  | None => "--"
  end.

(** A cell of the "than yesterday" row: the empty string, or a coloured
    span with the amount and the word, followed by the closing text. *)
Inductive annotation : Type :=
| NoAnnotation
| Delta (color amount word closing : string).

Definition textContent (a : annotation) : string :=
  match a with
  | NoAnnotation => ""
  | Delta _ amount word closing => amount ++ word ++ closing
  end.

(** The word for "more", with its a-acute as the code unit 225. *)
Definition mas : string := " m" ++ String (ascii_of_N 225) "s".

Definition deltaCell (data : list TemperatureReading) (isIndoor : bool)
  : annotation :=
  match latestReading data with
  | Some latest =>
      if 1 <? Z.of_nat (List.length data) then
        match get24hDifference data (selected isIndoor latest) isIndoor with
        | Some diff =>
            Delta (if JS.lt diff JS.zero then "#DD9378" else "#7FB9D8")
                  (JS.toFixed1 (JS.neg diff))
                  (if JS.lt diff JS.zero then mas else "menos")
                  " que ayer"
        | None => NoAnnotation
        end
      else NoAnnotation
  | None => NoAnnotation
  end.

(** ** The iteration with the memoised chart (second page of part_000)

    Its lookup is the same; the difference is taken the other way round and
    returned as a magnitude and a direction. *)
Module Memoised.

Record Difference : Type := {
  absoluteDiff : JS.number;
  isIncrease : bool
}.

Definition get24hDifference (data : list TemperatureReading)
  (currentTemp : string) (isIndoor : bool) : option Difference :=
  match latestReading data with
  | None => None
  | Some latest =>
      let currentTime := timestamp latest in
      match reading24hAgo data (twentyFourHoursAgo currentTime) with
      | None => None
      | Some reading =>
          let current := JS.parseFloat currentTemp in
          let past := JS.parseFloat (selected isIndoor reading) in
          let diff := JS.sub current past in
          Some {| absoluteDiff := JS.abs diff; isIncrease := JS.gt diff JS.zero |}
      end
  end.

End Memoised.

(** ** The first iteration (part_001): no time range yet *)
Module Earliest.

Definition formatData (data : list TemperatureReading) : list ChartPoint :=
  map (chartPoint "en-US") data.

End Earliest.

(** ** Vocabulary of the statements *)

Local Open Scope list_scope.

(** The instant of a reading, when its timestamp is a valid date. *)
Definition instant (r : TemperatureReading) : option Z :=
  JS.getTime (timestamp r).

(** The distance in milliseconds from a reading to the instant [target]. *)
Definition distanceTo (target : Z) (r : TemperatureReading) : option Z :=
  option_map (fun t => Z.abs (t - target)) (instant r).

Definition dateLe (d1 d2 : JS.Date) : Prop :=
  match JS.getTime d1, JS.getTime d2 with
  | Some x, Some y => x <= y
  | _, _ => False
  end.

(** Ascending by timestamp, as the query orders the rows. *)
Definition ascending (data : list TemperatureReading) : Prop :=
  StronglySorted (fun a b => dateLe (timestamp a) (timestamp b)) data.

Definition window (timeRange : TimeRange) : Z :=
  match timeRange with
  | Range24h => 24 * 60 * 60 * 1000
  | Range7d => 7 * 24 * 60 * 60 * 1000
  end.

(** [l1] is [l2] with some elements dropped, the others in their order. *)
Inductive subsequence {A : Type} : list A -> list A -> Prop :=
| subsequence_nil : subsequence [] []
| subsequence_drop x l1 l2 : subsequence l1 l2 -> subsequence l1 (x :: l2)
| subsequence_keep x l1 l2 :
    subsequence l1 l2 -> subsequence (x :: l1) (x :: l2).

(** The date a chart point was labelled from. *)
Definition pointDate (p : ChartPoint) : JS.Date :=
  match time_label p with
  | JS.toLocaleString d _ => d
  end.

Definition isDigit (c : ascii) : bool :=
  match JS.digitValue c with
  | Some _ => true
  | None => false
  end.

(** A string with no numeric prefix: after the white space and the sign
    comes neither [Infinity], nor a digit, nor a point and a digit. *)
Definition startsLiteral (u : string) : bool :=
  prefix "Infinity" u
  || match u with
     | String c r =>
         isDigit c
         || ((c =? ".")%char
             && match r with
                | String d _ => isDigit d
                | EmptyString => false
                end)
     | EmptyString => false
     end.

Definition nonNumeric (s : string) : Prop :=
  startsLiteral (snd (JS.scanSign (JS.trimStart s))) = false.


(** ** Sample readings *)

Definition reading (i : string) (t : Z) (outside inside : string)
  : TemperatureReading :=
  {| id := i;
     timestamp_parsed := Some t;
     outdoor_temp := outside;
     indoor_temp := inside;
     temp_differential := "" |}.

Definition hour : Z := 60 * 60 * 1000.

(** Five readings, twelve hours apart, from 2024-07-03T09:46:40Z on. *)
Definition sample : list TemperatureReading :=
  [ reading "a" 1720000000000 "18.5" "23.0";
    reading "b" (1720000000000 + 12 * hour) "27.0" "24.5";
    reading "c" (1720000000000 + 24 * hour) "19.0" "23.5";
    reading "d" (1720000000000 + 36 * hour) "29.5" "25.0";
    reading "e" (1720000000000 + 48 * hour) "21.0" "24.0" ].

(** Two readings ten minutes either side of the target, then the latest. *)
Definition tied : list TemperatureReading :=
  [ reading "p" (1720000000000 - 600000) "20.0" "22.0";
    reading "q" (1720000000000 + 600000) "20.5" "22.5";
    reading "r" (1720000000000 + 24 * hour) "21.0" "23.0" ].

(** The latest reading lies on the first instant a Date can hold, the
    other reading one hour after it. *)
Definition earliest : list TemperatureReading :=
  [ reading "b" (-8640000000000000 + hour) "20.0" "22.0";
    reading "a" (-8640000000000000) "19.0" "21.0" ].

(** Two sensors report at the same instant, a day before the latest. *)
Definition twins : list TemperatureReading :=
  [ reading "d1" 1720000000000 "18.5" "23.0";
    reading "d2" 1720000000000 "18.0" "22.5";
    reading "dl" (1720000000000 + 24 * hour) "21.0" "24.0" ].


(** ** The rest of the page *)

(** The single tick of the time axis,
    [formatData(data)[formatData(data).length - 1]?.time]: the two calls
    read the clock one after the other, at [now1] and then [now2]. *)
Definition axisTick (timeRange : TimeRange) (now1 now2 : Z)
  (data : list TemperatureReading) : option JS.localeString :=
  option_map time_label
    (at_index (formatData timeRange now1 data)
       (Z.of_nat (List.length (formatData timeRange now2 data)) - 1)).

(** *** Loading the readings: fetchTemperatureData

    The state it writes is the pair of [useState] cells [data] and
    [loading]; [console] collects the calls of [console.error], message
    first, then the value logged with it. *)
Module Loading.

Record State : Type := {
  data : list TemperatureReading;
  loading : bool;
  console : list (string * option string)
}.

(** [useState([])] and [useState(true)]. *)
Definition initial : State :=
  {| data := []; loading := true; console := [] |}.

(** What awaiting the query gives: the object [{ data, error }], either
    field possibly [null], or an exception. *)
Inductive QueryResult : Type :=
| Resolved (readings : option (list TemperatureReading)) (error : option string)
| Rejected (reason : string).

Definition log (entry : string * option string) (s : State) : State :=
  {| data := data s; loading := loading s;
     console := (console s ++ [entry])%list |}.

Definition setData (readings : list TemperatureReading) (s : State) : State :=
  {| data := readings; loading := loading s; console := console s |}.

Definition setLoading (b : bool) (s : State) : State :=
  {| data := data s; loading := b; console := console s |}.

(** [supabase] is the client, [None] when it could not be created, paired
    here with the result its query will give. *)
Definition fetchTemperatureData (supabase : option QueryResult) (s : State)
  : State :=
  let tried :=
    match supabase with
    | None =>
        setLoading false (log ("Supabase client not available", None) s)
    | Some (Resolved readings (Some error)) =>
        log ("Error fetching data:", Some error) s
    | Some (Resolved readings None) =>
        setData (match readings with Some l => l | None => [] end) s
    | Some (Rejected reason) => log ("Error:", Some reason) s
    end in
  setLoading false tried.

End Loading.

(** *** The cat: handleCatClick

    A click shows the bubble and arms a timer of one second that hides it;
    no timer is ever cancelled.  [pending] counts the armed timers. *)
Module Miau.

Record State : Type := {
  showMiau : bool;
  pending : nat
}.

Definition initial : State := {| showMiau := false; pending := 0 |}.

Definition handleCatClick (s : State) : State :=
  {| showMiau := true; pending := S (pending s) |}.

(** One of the armed timers fires; with none armed nothing can fire. *)
Definition timeout (s : State) : option State :=
  match pending s with
  | O => None
  | S n => Some {| showMiau := false; pending := n |}
  end.

Inductive Event : Type := Click | Timeout.

Definition isClick (e : Event) : bool :=
  match e with
  | Click => true
  | Timeout => false
  end.

Definition clicks (events : list Event) : nat :=
  List.length (filter isClick events).

Definition timeouts (events : list Event) : nat :=
  List.length (filter (fun e => negb (isClick e)) events).

Fixpoint run (events : list Event) (s : State) : option State :=
  match events with
  | [] => Some s
  | Click :: rest => run rest (handleCatClick s)
  | Timeout :: rest =>
      match timeout s with
      | Some s' => run rest s'
      | None => None
      end
  end.

End Miau.

(** ** Numbers at work *)

Example parseFloat_tenth :
  JS.parseFloat "0.1" = S754_finite false 7205759403792794 (-56).
Proof. reflexivity. Qed.

Example parseFloat_prefix : JS.parseFloat "  -7.25 C" = JS.parseFloat "-7.25".
Proof. reflexivity. Qed.

Example parseFloat_exponent : JS.parseFloat "2.5e1x" = JS.parseFloat "25".
Proof. reflexivity. Qed.

Example parseFloat_overflow : JS.parseFloat "1e400" = S754_infinity false.
Proof. reflexivity. Qed.

Example parseFloat_empty : JS.parseFloat "" = JS.NaN.
Proof. reflexivity. Qed.

Example parseFloat_words : JS.parseFloat "n/a" = JS.NaN.
Proof. reflexivity. Qed.

Example toFixed1_rounded_difference :
  JS.toFixed1 (JS.sub (JS.parseFloat "22.1") (JS.parseFloat "20.3")) = "1.8".
Proof. reflexivity. Qed.

Example toFixed1_half_up : JS.toFixed1 (JS.parseFloat "0.25") = "0.3".
Proof. reflexivity. Qed.

Example toFixed1_small_negative : JS.toFixed1 (JS.parseFloat "-0.04") = "-0.0".
Proof. reflexivity. Qed.

Example toFixed1_negative_zero : JS.toFixed1 (JS.parseFloat "-0") = "0.0".
Proof. reflexivity. Qed.

Example toFixed1_large : JS.toFixed1 (JS.parseFloat "1.5e300") = "1.5e+300".
Proof. vm_compute. reflexivity. Qed.

Example toFixed1_NaN : JS.toFixed1 JS.NaN = "NaN".
Proof. reflexivity. Qed.

(** ** Arrays *)

Section Arrays.
Context {A : Type}.

Lemma at_index_nil (i : Z) : at_index (@nil A) i = None.
Proof.
  unfold at_index. destruct (i <? 0); [reflexivity|].
  now destruct (Z.to_nat i).
Qed.

Lemma at_index_first (x : A) (l : list A) : at_index (x :: l) 0 = Some x.
Proof. reflexivity. Qed.

Lemma at_index_last (l : list A) (x : A) :
  at_index (l ++ [x]) (Z.of_nat (List.length (l ++ [x])) - 1) = Some x.
Proof.
  unfold at_index. rewrite length_app. simpl List.length.
  replace (Z.of_nat (List.length l + 1) - 1) with (Z.of_nat (List.length l))
    by lia.
  destruct (Z.ltb_spec (Z.of_nat (List.length l)) 0) as [E|E]; [lia|].
  rewrite Nat2Z.id, nth_error_app2 by lia.
  now rewrite Nat.sub_diag.
Qed.

Lemma at_index_In (l : list A) (i : Z) (x : A) :
  at_index l i = Some x -> In x l.
Proof.
  unfold at_index. destruct (i <? 0); [discriminate|].
  apply nth_error_In.
Qed.

End Arrays.

Lemma latestReading_nil : latestReading [] = None.
Proof. reflexivity. Qed.

Lemma latestReading_snoc (l : list TemperatureReading) (r : TemperatureReading) :
  latestReading (l ++ [r]) = Some r.
Proof. apply at_index_last. Qed.

Lemma latestReading_In data latest :
  latestReading data = Some latest -> In latest data.
Proof. apply at_index_In. Qed.

Lemma latestReading_some data :
  data <> [] -> exists latest, latestReading data = Some latest.
Proof.
  intros Hne. destruct (exists_last Hne) as (l & r & ->).
  exists r. apply latestReading_snoc.
Qed.

Lemma latestReading_single r : latestReading [r] = Some r.
Proof. reflexivity. Qed.

(** ** Dates *)

Lemma inRange_bounds (t : Z) :
  JS.inRange t = true <-> -8640000000000000 <= t <= 8640000000000000.
Proof. unfold JS.inRange. rewrite andb_true_iff, !Z.leb_le. tauto. Qed.

Lemma timeClip_some (value : JS.time) (t : Z) :
  JS.timeClip value = Some t -> value = Some t /\ JS.inRange t = true.
Proof.
  destruct value as [x|]; simpl; [|discriminate].
  destruct (JS.inRange x) eqn:E; [|discriminate].
  now intros [= <-].
Qed.

Lemma timeClip_inRange (t : Z) :
  JS.inRange t = true -> JS.timeClip (Some t) = Some t.
Proof. simpl. now intros ->. Qed.

(** The instant of a reading is always one a Date can hold. *)
Lemma instant_inRange (r : TemperatureReading) (t : Z) :
  instant r = Some t -> JS.inRange t = true.
Proof. intros H. now apply timeClip_some in H. Qed.

(** ** The nearest-reading lookup *)

Section Lookup.
Variable target : JS.Date.

Lemma closer_cases (closest reading : TemperatureReading) :
  closer target closest reading = reading
  \/ closer target closest reading = closest.
Proof. unfold closer. destruct (JS.tlt _ _); auto. Qed.

Lemma scan_In (data : list TemperatureReading) :
  forall start,
    fold_left (closer target) data start = start
    \/ In (fold_left (closer target) data start) data.
Proof.
  induction data as [|x xs IH]; intros start; simpl; [now left|].
  destruct (IH (closer target start x)) as [E|HIn]; [|now right; right].
  rewrite E. destruct (closer_cases start x) as [-> | ->]; auto.
Qed.

Lemma reading24hAgo_In (data : list TemperatureReading) :
  data <> [] -> exists r, reading24hAgo data target = Some r /\ In r data.
Proof.
  destruct data as [|x xs]; [congruence|]. intros _.
  unfold reading24hAgo. rewrite at_index_first.
  eexists; split; [reflexivity|].
  destruct (scan_In (x :: xs) x) as [-> | HIn]; [now left | exact HIn].
Qed.

(** A first reading with an invalid date is never replaced: every
    comparison against NaN is false. *)
Lemma invalid_first_is_kept (first : TemperatureReading)
  (rest : list TemperatureReading) :
  instant first = None -> reading24hAgo (first :: rest) target = Some first.
Proof.
  intros Hinv. unfold reading24hAgo. rewrite at_index_first. f_equal.
  assert (Hkeep : forall l, fold_left (closer target) l first = first).
  { induction l as [|x l IH]; simpl; [reflexivity|].
    replace (closer target first x) with first; [exact IH|].
    unfold closer. unfold instant in Hinv. rewrite Hinv. simpl.
    now destruct (JS.tabs _). }
  apply Hkeep.
Qed.

(** Against an Invalid Date as target every comparison is false, and the
    scan ends where it started: on the first reading. *)
Lemma invalid_target_keeps_first (data : list TemperatureReading) :
  JS.getTime target = None -> reading24hAgo data target = at_index data 0.
Proof.
  intros Hinv. unfold reading24hAgo.
  destruct (at_index data 0) as [first|]; [|reflexivity]. f_equal.
  assert (Hkeep : forall l, fold_left (closer target) l first = first).
  { induction l as [|x l IH]; simpl; [reflexivity|].
    replace (closer target first x) with first; [exact IH|].
    unfold closer. rewrite Hinv.
    destruct (JS.getTime (timestamp x)), (JS.getTime (timestamp first));
      reflexivity. }
  apply Hkeep.
Qed.

(** With every instant known, the callback compares the two distances. *)
Variable g : Z.
Hypothesis target_valid : JS.getTime target = Some g.

Lemma closer_valid (closest reading : TemperatureReading) (dc dr : Z) :
  distanceTo g closest = Some dc ->
  distanceTo g reading = Some dr ->
  closer target closest reading = if dr <? dc then reading else closest.
Proof.
  unfold distanceTo, instant, closer. rewrite target_valid.
  destruct (JS.getTime (timestamp closest)), (JS.getTime (timestamp reading));
    simpl; try discriminate.
  now intros [= <-] [= <-].
Qed.

(** The scan keeps [start] when nothing is strictly nearer; otherwise it
    stops on the first reading of least distance. *)
Lemma scan_first_minimum (data : list TemperatureReading) :
  Forall (fun r => exists d, distanceTo g r = Some d) data ->
  forall start ds,
    distanceTo g start = Some ds ->
    let res := fold_left (closer target) data start in
    (res = start
     /\ forall r, In r data -> exists d, distanceTo g r = Some d /\ ds <= d)
    \/ (exists l1 l2 d,
          data = l1 ++ res :: l2
          /\ distanceTo g res = Some d /\ d < ds
          /\ (forall r, In r l1 -> exists d', distanceTo g r = Some d' /\ d < d')
          /\ (forall r, In r l2 -> exists d', distanceTo g r = Some d' /\ d <= d')).
Proof.
  induction 1 as [|x xs [dx Hx] _ IH]; intros start ds Hs; simpl.
  - left. split; [reflexivity|]. intros r [].
  - rewrite (closer_valid _ _ _ _ Hs Hx).
    destruct (Z.ltb_spec dx ds) as [Hlt|Hge].
    + destruct (IH x dx Hx) as [[E Hall] | (l1 & l2 & d & E & Hd & Hlt' & H1 & H2)].
      * right. exists [], xs, dx. rewrite E. repeat split; auto.
        intros r [].
      * right. exists (x :: l1), l2, d. simpl. rewrite <- E.
        repeat split; auto; try lia.
        intros r [<- | HIn]; [exists dx; split; [assumption | lia] | auto].
    + destruct (IH start ds Hs) as [[E Hall] | (l1 & l2 & d & E & Hd & Hlt' & H1 & H2)].
      * left. split; [assumption|].
        intros r [<- | HIn]; [exists dx; split; [assumption | lia] | auto].
      * right. exists (x :: l1), l2, d. simpl. rewrite <- E.
        repeat split; auto.
        intros r [<- | HIn]; [exists dx; split; [assumption | lia] | auto].
Qed.

Lemma reading24hAgo_first_minimum (data : list TemperatureReading) :
  data <> [] ->
  Forall (fun r => exists d, distanceTo g r = Some d) data ->
  exists l1 res l2 d,
    data = l1 ++ res :: l2
    /\ reading24hAgo data target = Some res
    /\ distanceTo g res = Some d
    /\ (forall r, In r l1 -> exists d', distanceTo g r = Some d' /\ d < d')
    /\ (forall r, In r l2 -> exists d', distanceTo g r = Some d' /\ d <= d').
Proof.
  destruct data as [|x xs]; [congruence|]. intros _ Hall.
  unfold reading24hAgo. rewrite at_index_first.
  pose proof (Forall_inv Hall) as [dx Hx].
  destruct (scan_first_minimum _ Hall x dx Hx)
    as [[E Hmin] | (l1 & l2 & d & E & Hd & _ & H1 & H2)].
  - exists [], x, xs, dx. rewrite E. repeat split; auto.
    + intros r [].
    + intros r HIn. apply Hmin. now right.
  - exists l1, (fold_left (closer target) (x :: xs) x), l2, d.
    repeat split; auto.
Qed.

End Lookup.

Lemma distanceTo_valid (g : Z) (r : TemperatureReading) :
  (exists t, instant r = Some t) -> exists d, distanceTo g r = Some d.
Proof. intros [t Ht]. unfold distanceTo. rewrite Ht. simpl. eauto. Qed.

Lemma twentyFourHoursAgo_valid (current : Z) :
  JS.inRange (current - 24 * 60 * 60 * 1000) = true ->
  JS.getTime (twentyFourHoursAgo (JS.newDate (Some current)))
  = Some (current - 24 * 60 * 60 * 1000).
Proof.
  intros Hin.
  change (JS.timeClip (Some (current - 24 * 60 * 60 * 1000))
          = Some (current - 24 * 60 * 60 * 1000)).
  now apply timeClip_inRange.
Qed.

Lemma twentyFourHoursAgo_invalid (current : Z) :
  JS.inRange (current - 24 * 60 * 60 * 1000) = false ->
  JS.getTime (twentyFourHoursAgo (JS.newDate (Some current))) = None.
Proof.
  intros Hout.
  change (JS.timeClip (Some (current - 24 * 60 * 60 * 1000)) = None).
  unfold JS.timeClip. now rewrite Hout.
Qed.

Lemma target_of_latest (latest : TemperatureReading) (tl : Z) :
  instant latest = Some tl ->
  JS.inRange (tl - 24 * 60 * 60 * 1000) = true ->
  JS.getTime (twentyFourHoursAgo (timestamp latest))
  = Some (tl - 24 * 60 * 60 * 1000).
Proof.
  intros Htl Hin. unfold twentyFourHoursAgo. unfold instant in Htl.
  rewrite Htl. exact (twentyFourHoursAgo_valid tl Hin).
Qed.

Lemma target_of_latest_invalid (latest : TemperatureReading) (tl : Z) :
  instant latest = Some tl ->
  JS.inRange (tl - 24 * 60 * 60 * 1000) = false ->
  JS.getTime (twentyFourHoursAgo (timestamp latest)) = None.
Proof.
  intros Htl Hout. unfold twentyFourHoursAgo. unfold instant in Htl.
  rewrite Htl. exact (twentyFourHoursAgo_invalid tl Hout).
Qed.

Lemma ascending_instants (data : list TemperatureReading) :
  ascending data -> (2 <= List.length data)%nat ->
  Forall (fun r => exists t, instant r = Some t) data.
Proof.
  destruct data as [|x [|y l]]; simpl; try lia.
  intros Hsorted _. apply StronglySorted_inv in Hsorted as [_ Hx].
  assert (Hlater : Forall (fun r => exists t, instant r = Some t) (y :: l)).
  { eapply Forall_impl; [|exact Hx]. intros z Hz. unfold dateLe in Hz.
    unfold instant. destruct (JS.getTime (timestamp x)); [|contradiction].
    destruct (JS.getTime (timestamp z)); [eauto | contradiction]. }
  constructor; [|assumption].
  apply Forall_inv in Hx. unfold dateLe in Hx. unfold instant.
  destruct (JS.getTime (timestamp x)); [eauto | contradiction].
Qed.

(** ** The lookup: membership, minimality, exact hits *)

(** C9: on a non-empty sequence the lookup returns a reading, and that
    reading is an element of the sequence. *)
Theorem reading24hAgo_member :
  forall (data : list TemperatureReading) (target : JS.Date),
    data <> [] ->
    exists r, reading24hAgo data target = Some r /\ In r data.
Proof. intros data target. apply reading24hAgo_In. Qed.

Lemma reading24hAgo_member_witness :
  exists r,
    reading24hAgo sample (twentyFourHoursAgo (JS.newDate (Some 1720172800000)))
    = Some r
    /\ In r sample.
Proof. apply (reading24hAgo_member sample); discriminate. Defined.




(** The tie goes to the earlier reading. *)
Example tied_lookup :
  reading24hAgo tied
    (twentyFourHoursAgo (JS.newDate (Some (1720000000000 + 24 * hour))))
  = Some (reading "p" (1720000000000 - 600000) "20.0" "22.0").
Proof. reflexivity. Qed.

Lemma distanceTo_zero (g : Z) (r : TemperatureReading) :
  distanceTo g r = Some 0 <-> instant r = Some g.
Proof.
  unfold distanceTo. destruct (instant r) as [t|]; simpl.
  - split; intros [= H]; f_equal; lia.
  - split; discriminate.
Qed.

Lemma distanceTo_nonneg (g : Z) (r : TemperatureReading) (d : Z) :
  distanceTo g r = Some d -> 0 <= d.
Proof.
  unfold distanceTo. destruct (instant r); simpl; [|discriminate].
  intros [= <-]. lia.
Qed.

(** C3, as the code has it: in an ascending sequence holding a reading [r]
    exactly 24 hours before the latest one, the lookup returns a reading at
    that very instant, the first of the sequence there; it is [r] itself as
    soon as no other reading shares the instant. *)
Theorem exact_reading_found :
  forall (data : list TemperatureReading) (latest r : TemperatureReading)
         (t : Z),
    ascending data ->
    latestReading data = Some latest ->
    In r data ->
    instant r = Some t ->
    instant latest = Some (t + 24 * 60 * 60 * 1000) ->
    exists l1 res l2,
      reading24hAgo data (twentyFourHoursAgo (timestamp latest)) = Some res
      /\ data = l1 ++ res :: l2
      /\ instant res = Some t
      /\ (forall x, In x l1 -> instant x <> Some t)
      /\ ((forall x, In x data -> instant x = Some t -> x = r) -> res = r).
Proof.
  intros data latest r t Hasc Hlatest Hr Ht Hlt.
  assert (Hlen : (2 <= List.length data)%nat).
  { destruct data as [|x [|y l]]; simpl; try lia; [destruct Hr|].
    destruct Hr as [<- | []]. cbv in Hlatest. injection Hlatest as <-.
    rewrite Ht in Hlt. injection Hlt. lia. }
  assert (Hne : data <> []) by (intros ->; destruct Hr).
  assert (Htarget : JS.getTime (twentyFourHoursAgo (timestamp latest)) = Some t).
  { assert (Hin : JS.inRange (t + 24 * 60 * 60 * 1000 - 24 * 60 * 60 * 1000)
                  = true).
    { replace (t + 24 * 60 * 60 * 1000 - 24 * 60 * 60 * 1000) with t by lia.
      exact (instant_inRange _ _ Ht). }
    rewrite (target_of_latest _ _ Hlt Hin). f_equal. lia. }
  pose proof (ascending_instants data Hasc Hlen) as Hvalid.
  destruct (reading24hAgo_first_minimum _ t Htarget data Hne)
    as (l1 & res & l2 & d & Edata & Eres & Hd & H1 & H2).
  { eapply Forall_impl; [|exact Hvalid]. intros x. apply distanceTo_valid. }
  assert (Hr0 : distanceTo t r = Some 0) by now apply distanceTo_zero.
  assert (Hd0 : d = 0).
  { pose proof (distanceTo_nonneg _ _ _ Hd) as Hpos.
    rewrite Edata in Hr. apply in_app_or in Hr as [Hr | [<- | Hr]].
    - destruct (H1 r Hr) as (d' & Hd' & Hlt'). rewrite Hr0 in Hd'.
      injection Hd' as <-. lia.
    - rewrite Hr0 in Hd. now injection Hd.
    - destruct (H2 r Hr) as (d' & Hd' & Hle'). rewrite Hr0 in Hd'.
      injection Hd' as <-. lia. }
  subst d. apply distanceTo_zero in Hd.
  exists l1, res, l2. repeat split; try assumption.
  - intros x Hx Hxt. destruct (H1 x Hx) as (d' & Hd' & Hlt').
    apply distanceTo_zero in Hxt. rewrite Hxt in Hd'. injection Hd' as <-. lia.
  - intros Huniq. apply Huniq; [|assumption].
    rewrite Edata. apply in_or_app. right. now left.
Qed.

Lemma sample_ascending : ascending sample.
Proof.
  unfold ascending, sample.
  repeat (constructor; [|repeat constructor; unfold dateLe; simpl; unfold hour; lia]).
  constructor.
Qed.

Lemma exact_reading_found_witness :
  exists l1 res l2,
    reading24hAgo sample
      (twentyFourHoursAgo
         (timestamp (reading "e" (1720000000000 + 48 * hour) "21.0" "24.0")))
    = Some res
    /\ sample = l1 ++ res :: l2
    /\ instant res = Some (1720000000000 + 24 * hour)
    /\ (forall x, In x l1 -> instant x <> Some (1720000000000 + 24 * hour))
    /\ res = reading "c" (1720000000000 + 24 * hour) "19.0" "23.5".
Proof.
  destruct (exact_reading_found sample
              (reading "e" (1720000000000 + 48 * hour) "21.0" "24.0")
              (reading "c" (1720000000000 + 24 * hour) "19.0" "23.5")
              (1720000000000 + 24 * hour))
    as (l1 & res & l2 & Hres & Hsplit & Hinst & Hfirst & Honly).
  - exact sample_ascending.
  - reflexivity.
  - simpl. auto.
  - reflexivity.
  - reflexivity.
  - exists l1, res, l2. repeat split; try assumption.
    apply Honly. intros x Hx Hxt.
    destruct Hx as [<- | [<- | [<- | [<- | [<- | []]]]]];
      solve [reflexivity | discriminate Hxt].
Defined.

(** In [twins] two readings share the instant 24 hours before the latest;
    the scan keeps the first of them, so the second, although exactly 24
    hours before the latest, is not the reading returned. *)
Lemma shared_instant_counterexample :
  ascending twins
  /\ latestReading twins
     = Some (reading "dl" (1720000000000 + 24 * hour) "21.0" "24.0")
  /\ In (reading "d2" 1720000000000 "18.0" "22.5") twins
  /\ instant (reading "d2" 1720000000000 "18.0" "22.5") = Some 1720000000000
  /\ instant (reading "dl" (1720000000000 + 24 * hour) "21.0" "24.0")
     = Some (1720000000000 + 24 * 60 * 60 * 1000)
  /\ reading24hAgo twins
       (twentyFourHoursAgo
          (timestamp (reading "dl" (1720000000000 + 24 * hour) "21.0" "24.0")))
     = Some (reading "d1" 1720000000000 "18.5" "23.0")
  /\ reading "d1" 1720000000000 "18.5" "23.0"
     <> reading "d2" 1720000000000 "18.0" "22.5".
Proof.
  repeat split; try discriminate.
  - unfold ascending, twins.
    repeat (constructor;
            [|repeat constructor; unfold dateLe; simpl; unfold hour; lia]).
    constructor.
  - simpl. auto.
Qed.

(** ** The delta *)

Lemma get24hDifference_nil (currentTemp : string) (isIndoor : bool) :
  get24hDifference [] currentTemp isIndoor = None.
Proof. reflexivity. Qed.

Lemma get24hDifference_unfold data latest past currentTemp isIndoor :
  latestReading data = Some latest ->
  reading24hAgo data (twentyFourHoursAgo (timestamp latest)) = Some past ->
  get24hDifference data currentTemp isIndoor
  = Some (JS.sub (JS.parseFloat (selected isIndoor past))
                 (JS.parseFloat currentTemp)).
Proof. intros Hl Hp. unfold get24hDifference. now rewrite Hl, Hp. Qed.

(** C1, as the code has it: with no reading the result is [null].  On a
    sequence of valid dates whose latest reading lies at least 24 hours
    after the first instant a Date can hold, the page returns the value at
    the nearest past reading minus the current value, and the memoised
    iteration the magnitude of current minus past together with whether
    that difference is positive; the past reading is the one nearest to 24
    hours before the latest timestamp, the first of the sequence among
    equally near ones. *)
Theorem get24hDifference_value :
  forall (data : list TemperatureReading) (currentTemp : string)
         (isIndoor : bool),
    get24hDifference [] currentTemp isIndoor = None
    /\ Memoised.get24hDifference [] currentTemp isIndoor = None
    /\ forall (latest : TemperatureReading) (tl : Z),
         Forall (fun r => exists t, instant r = Some t) data ->
         latestReading data = Some latest ->
         instant latest = Some tl ->
         JS.inRange (tl - 24 * 60 * 60 * 1000) = true ->
         exists l1 past l2 d,
           data = l1 ++ past :: l2
           /\ distanceTo (tl - 24 * 60 * 60 * 1000) past = Some d
           /\ (forall r, In r l1 ->
                 exists d',
                   distanceTo (tl - 24 * 60 * 60 * 1000) r = Some d' /\ d < d')
           /\ (forall r, In r l2 ->
                 exists d',
                   distanceTo (tl - 24 * 60 * 60 * 1000) r = Some d' /\ d <= d')
           /\ get24hDifference data currentTemp isIndoor
              = Some (JS.sub (JS.parseFloat (selected isIndoor past))
                             (JS.parseFloat currentTemp))
           /\ Memoised.get24hDifference data currentTemp isIndoor
              = Some {| Memoised.absoluteDiff :=
                          JS.abs (JS.sub (JS.parseFloat currentTemp)
                                    (JS.parseFloat (selected isIndoor past)));
                        Memoised.isIncrease :=
                          JS.gt (JS.sub (JS.parseFloat currentTemp)
                                   (JS.parseFloat (selected isIndoor past)))
                                JS.zero |}.
Proof.
  intros data currentTemp isIndoor. repeat split.
  intros latest tl Hvalid Hl Htl Hin.
  assert (Hne : data <> []) by (intros ->; discriminate).
  destruct (reading24hAgo_first_minimum _ _ (target_of_latest _ _ Htl Hin)
              data Hne)
    as (l1 & past & l2 & d & Hsplit & Hp & Hd & H1 & H2).
  { eapply Forall_impl; [|exact Hvalid]. intros r. apply distanceTo_valid. }
  exists l1, past, l2, d. repeat split; try assumption.
  - now apply (get24hDifference_unfold data latest past).
  - unfold Memoised.get24hDifference. now rewrite Hl, Hp.
Qed.

Lemma get24hDifference_value_witness :
  get24hDifference [] "24.0" true = None
  /\ Memoised.get24hDifference [] "24.0" true = None
  /\ exists l1 past l2 d,
       sample = l1 ++ past :: l2
       /\ distanceTo (1720000000000 + 48 * hour - 24 * 60 * 60 * 1000) past
          = Some d
       /\ (forall r, In r l1 ->
             exists d',
               distanceTo (1720000000000 + 48 * hour - 24 * 60 * 60 * 1000) r
               = Some d' /\ d < d')
       /\ (forall r, In r l2 ->
             exists d',
               distanceTo (1720000000000 + 48 * hour - 24 * 60 * 60 * 1000) r
               = Some d' /\ d <= d')
       /\ get24hDifference sample "24.0" true
          = Some (JS.sub (JS.parseFloat (selected true past))
                         (JS.parseFloat "24.0"))
       /\ Memoised.get24hDifference sample "24.0" true
          = Some {| Memoised.absoluteDiff :=
                      JS.abs (JS.sub (JS.parseFloat "24.0")
                                (JS.parseFloat (selected true past)));
                    Memoised.isIncrease :=
                      JS.gt (JS.sub (JS.parseFloat "24.0")
                               (JS.parseFloat (selected true past)))
                            JS.zero |}.
Proof.
  destruct (get24hDifference_value sample "24.0" true) as (Hnil & Hnil' & Hval).
  repeat split.
  apply (Hval (reading "e" (1720000000000 + 48 * hour) "21.0" "24.0")
              (1720000000000 + 48 * hour)).
  - repeat constructor; eexists; reflexivity.
  - reflexivity.
  - reflexivity.
  - reflexivity.
Defined.

(** On [sample] the latest indoor value is 24.0 and the reading 24 hours
    earlier has 23.5: the page returns -0.5, not the 0.5 of current minus
    past.  On [earliest] the latest reading lies on the first instant of
    the Date range, the target is an Invalid Date and the page compares
    with the first reading (22.0 against the current 21.0), although the
    latest reading itself is the one nearest to 24 hours before it. *)
Lemma get24hDifference_sign_counterexample :
  latestReading sample
  = Some (reading "e" (1720000000000 + 48 * hour) "21.0" "24.0")
  /\ reading24hAgo sample
       (twentyFourHoursAgo (JS.newDate (Some (1720000000000 + 48 * hour))))
     = Some (reading "c" (1720000000000 + 24 * hour) "19.0" "23.5")
  /\ get24hDifference sample "24.0" true = Some (JS.parseFloat "-0.5")
  /\ JS.sub (JS.parseFloat "24.0") (JS.parseFloat "23.5") = JS.parseFloat "0.5"
  /\ get24hDifference sample "24.0" true
     <> Some (JS.sub (JS.parseFloat "24.0") (JS.parseFloat "23.5"))
  /\ latestReading earliest
     = Some (reading "a" (-8640000000000000) "19.0" "21.0")
  /\ distanceTo (-8640000000000000 - 24 * 60 * 60 * 1000)
       (reading "a" (-8640000000000000) "19.0" "21.0")
     = Some (24 * hour)
  /\ distanceTo (-8640000000000000 - 24 * 60 * 60 * 1000)
       (reading "b" (-8640000000000000 + hour) "20.0" "22.0")
     = Some (25 * hour)
  /\ get24hDifference earliest "21.0" true = Some (JS.parseFloat "1")
  /\ get24hDifference earliest "21.0" true
     <> Some (JS.sub (JS.parseFloat "21.0") (JS.parseFloat "21.0")).
Proof. repeat split; vm_compute; congruence. Qed.

(** The display negates it again: 0.5 more than yesterday. *)
Example sample_annotation :
  deltaCell sample true
  = Delta "#DD9378" "0.5" mas " que ayer".
Proof. reflexivity. Qed.

(** C5, as the code has it: with fewer than two readings no annotation is
    rendered, the guard being at the call site; [get24hDifference] itself
    returns [null] on the empty sequence only, and on a single reading the
    difference between that reading's value and the current one. *)
Theorem delta_needs_two_readings :
  forall (data : list TemperatureReading) (currentTemp : string)
         (isIndoor : bool),
    (List.length data < 2)%nat ->
    deltaCell data isIndoor = NoAnnotation
    /\ match data with
       | [] => get24hDifference data currentTemp isIndoor = None
       | r :: _ =>
           get24hDifference data currentTemp isIndoor
           = Some (JS.sub (JS.parseFloat (selected isIndoor r))
                          (JS.parseFloat currentTemp))
       end.
Proof.
  intros [|r [|r' l]] currentTemp isIndoor Hlen; simpl in Hlen; try lia.
  - split; reflexivity.
  - split; [reflexivity|].
    apply (get24hDifference_unfold [r] r r); [reflexivity|].
    unfold reading24hAgo. rewrite at_index_first. simpl.
    now destruct (closer_cases (twentyFourHoursAgo (timestamp r)) r r) as [-> | ->].
Qed.

Lemma delta_needs_two_readings_witness :
  deltaCell [reading "a" 1720000000000 "18.5" "23.0"] true = NoAnnotation
  /\ get24hDifference [reading "a" 1720000000000 "18.5" "23.0"] "23.0" true
     = Some (JS.sub (JS.parseFloat
                       (selected true (reading "a" 1720000000000 "18.5" "23.0")))
                    (JS.parseFloat "23.0")).
Proof.
  apply (delta_needs_two_readings
           [reading "a" 1720000000000 "18.5" "23.0"] "23.0" true).
  simpl. lia.
Defined.

(** One reading is fewer than two, yet [get24hDifference] returns 0. *)
Lemma single_reading_difference_counterexample :
  (List.length [reading "a" 1720000000000 "18.5" "23.0"] < 2)%nat
  /\ get24hDifference [reading "a" 1720000000000 "18.5" "23.0"] "23.0" true
     = Some JS.zero
  /\ get24hDifference [reading "a" 1720000000000 "18.5" "23.0"] "23.0" true
     <> None.
Proof. repeat split; [simpl; lia | discriminate]. Qed.

(** ** The window recommendation *)

Lemma gt_irrefl (x : JS.number) : JS.gt x x = false.
Proof.
  unfold JS.gt, SFltb.
  destruct x as [s|s| |s m e]; simpl; try reflexivity.
  - now destruct s.
  - destruct s; rewrite Z.compare_refl, Pos.compare_cont_refl; reflexivity.
Qed.

Lemma eqb_not_gt (x y : JS.number) : JS.eqb y x = true -> JS.gt x y = false.
Proof.
  unfold JS.eqb, JS.gt, SFeqb, SFltb.
  now destruct (SFcompare y x) as [[]|].
Qed.

(** C4: the recommendation depends on the latest reading only; it is
    "close" exactly when the latest outdoor temperature is greater than the
    latest indoor one, so it is "open" when the two are equal, as numbers or
    as the same text. *)
Theorem window_recommendation :
  forall (data : list TemperatureReading) (latest : TemperatureReading),
    latestReading data = Some latest ->
    shouldCloseWindows data
    = JS.gt (JS.parseFloat (outdoor_temp latest))
            (JS.parseFloat (indoor_temp latest))
    /\ (JS.eqb (JS.parseFloat (indoor_temp latest))
               (JS.parseFloat (outdoor_temp latest)) = true ->
        shouldCloseWindows data = false)
    /\ (indoor_temp latest = outdoor_temp latest ->
        shouldCloseWindows data = false)
    /\ (forall data',
          latestReading data' = Some latest ->
          shouldCloseWindows data' = shouldCloseWindows data).
Proof.
  intros data latest Hl.
  assert (E : shouldCloseWindows data
              = JS.gt (JS.parseFloat (outdoor_temp latest))
                      (JS.parseFloat (indoor_temp latest)))
    by (unfold shouldCloseWindows; now rewrite Hl).
  repeat split.
  - exact E.
  - intros Heq. rewrite E. now apply eqb_not_gt.
  - intros Heq. rewrite E, Heq. apply gt_irrefl.
  - intros data' Hl'. rewrite E. unfold shouldCloseWindows. now rewrite Hl'.
Qed.

Lemma window_recommendation_witness :
  shouldCloseWindows [reading "w" 1720000000000 "26.0" "24.0"]
  = JS.gt (JS.parseFloat "26.0") (JS.parseFloat "24.0")
  /\ (JS.eqb (JS.parseFloat "24.0") (JS.parseFloat "26.0") = true ->
      shouldCloseWindows [reading "w" 1720000000000 "26.0" "24.0"] = false)
  /\ ("24.0" = "26.0" ->
      shouldCloseWindows [reading "w" 1720000000000 "26.0" "24.0"] = false)
  /\ (forall data',
        latestReading data' = Some (reading "w" 1720000000000 "26.0" "24.0") ->
        shouldCloseWindows data'
        = shouldCloseWindows [reading "w" 1720000000000 "26.0" "24.0"]).
Proof.
  apply (window_recommendation [reading "w" 1720000000000 "26.0" "24.0"]
           (reading "w" 1720000000000 "26.0" "24.0")).
  reflexivity.
Defined.

(** The three cases of the specification. *)
Example warmer_outside_close :
  shouldCloseWindows [reading "w" 1720000000000 "26.0" "24.0"] = true.
Proof. reflexivity. Qed.

Example cooler_outside_open :
  shouldCloseWindows [reading "w" 1720000000000 "24.0" "26.0"] = false.
Proof. reflexivity. Qed.

Example same_temperature_open :
  shouldCloseWindows [reading "w" 1720000000000 "24.0" "24.00"] = false.
Proof. reflexivity. Qed.

(** C8: with no reading the recommendation is "open", both latest values
    show the placeholder and no annotation is rendered. *)
Theorem empty_sequence_defaults :
  latestReading [] = None
  /\ shouldCloseWindows [] = false
  /\ indoorValue [] = "--"
  /\ outdoorValue [] = "--"
  /\ deltaCell [] true = NoAnnotation
  /\ deltaCell [] false = NoAnnotation.
Proof. repeat split. Qed.

(** ** The time-window filter *)

Section Subsequences.
Context {A : Type}.

Lemma filter_subsequence (f : A -> bool) (l : list A) :
  subsequence (filter f l) l.
Proof.
  induction l as [|x l IH]; simpl; [constructor|].
  destruct (f x); now constructor.
Qed.

Lemma filter_weaker_subsequence (f h : A -> bool) (l : list A) :
  (forall x, f x = true -> h x = true) ->
  subsequence (filter f l) (filter h l).
Proof.
  intros Himp. induction l as [|x l IH]; simpl; [constructor|].
  destruct (f x) eqn:Ef.
  - rewrite (Himp x Ef). now constructor.
  - destruct (h x); [now constructor | assumption].
Qed.

Lemma subsequence_In (l1 l2 : list A) :
  subsequence l1 l2 -> forall x, In x l1 -> In x l2.
Proof.
  induction 1 as [|y l1 l2 _ IH|y l1 l2 _ IH]; intros x Hx.
  - assumption.
  - right. now apply IH.
  - destruct Hx as [<- | Hx]; [now left | right; now apply IH].
Qed.

Lemma subsequence_sorted (R : A -> A -> Prop) (l1 l2 : list A) :
  subsequence l1 l2 -> StronglySorted R l2 -> StronglySorted R l1.
Proof.
  induction 1 as [|y l1 l2 Hsub IH|y l1 l2 Hsub IH]; intros Hs.
  - assumption.
  - apply StronglySorted_inv in Hs as [Hs _]. now apply IH.
  - apply StronglySorted_inv in Hs as [Hs Hy].
    constructor; [now apply IH|].
    rewrite Forall_forall in *. intros x Hx. apply Hy.
    now apply (subsequence_In l1 l2).
Qed.

End Subsequences.

Lemma cutoffTime_valid (timeRange : TimeRange) (now : Z) :
  JS.getTime (cutoffTime timeRange now) = Some (now - window timeRange).
Proof. now destruct timeRange. Qed.

Lemma dateGe_cutoff (timeRange : TimeRange) (now : Z) (r : TemperatureReading) :
  JS.dateGe (timestamp r) (cutoffTime timeRange now) = true
  <-> exists t, instant r = Some t /\ now - window timeRange <= t.
Proof.
  unfold JS.dateGe, instant. rewrite cutoffTime_valid.
  destruct (JS.getTime (timestamp r)) as [t|]; simpl.
  - rewrite Z.leb_le. split; [eauto|]. now intros (t' & [= <-] & H).
  - split; [discriminate|]. now intros (t' & [=] & _).
Qed.

(** C7: the filter keeps exactly the readings whose instant is at or after
    [now - window], and the readings of the last 24 hours are, in order,
    among those of the last 7 days. *)
Theorem filteredData_window :
  forall (now : Z) (data : list TemperatureReading),
    (forall timeRange r,
       In r (filteredData timeRange now data)
       <-> In r data
           /\ exists t, instant r = Some t /\ now - window timeRange <= t)
    /\ window Range24h = 24 * 60 * 60 * 1000
    /\ window Range7d = 7 * 24 * 60 * 60 * 1000
    /\ subsequence (filteredData Range24h now data)
                   (filteredData Range7d now data)
    /\ incl (filteredData Range24h now data) (filteredData Range7d now data).
Proof.
  intros now data.
  assert (Hsub : subsequence (filteredData Range24h now data)
                             (filteredData Range7d now data)).
  { apply filter_weaker_subsequence. intros r.
    rewrite !dateGe_cutoff. intros (t & Ht & Hle). exists t.
    split; [assumption|]. simpl in *. lia. }
  repeat split; try assumption.
  - now apply filter_In in H.
  - apply filter_In in H as [_ H]. now apply dateGe_cutoff.
  - intros [HIn Ht]. apply filter_In. split; [assumption|].
    now apply dateGe_cutoff.
  - intros r. now apply subsequence_In.
Qed.

(** The first iteration keeps every reading: it has no time range. *)
Lemma earliest_formatData_all (data : list TemperatureReading) :
  map pointDate (Earliest.formatData data) = map timestamp data.
Proof.
  unfold Earliest.formatData. rewrite map_map. reflexivity.
Qed.

Lemma formatData_dates timeRange now data :
  map pointDate (formatData timeRange now data)
  = map timestamp (filteredData timeRange now data).
Proof. unfold formatData. rewrite map_map. reflexivity. Qed.

Lemma ascending_dates (data : list TemperatureReading) :
  ascending data -> StronglySorted dateLe (map timestamp data).
Proof.
  induction 1 as [|x l _ IH Hx]; simpl; constructor; [assumption|].
  rewrite Forall_forall in *. intros d Hd.
  apply in_map_iff in Hd as (r & <- & Hr). now apply Hx.
Qed.

(** C10: the filter returns a subsequence of its input; on an ascending
    input the filtered readings, and the dates of the chart points made from
    them, are ascending too. *)
Theorem filteredData_order :
  forall (timeRange : TimeRange) (now : Z) (data : list TemperatureReading),
    subsequence (filteredData timeRange now data) data
    /\ (ascending data ->
        ascending (filteredData timeRange now data)
        /\ StronglySorted dateLe
             (map pointDate (formatData timeRange now data))).
Proof.
  intros timeRange now data.
  assert (Hsub : subsequence (filteredData timeRange now data) data)
    by apply filter_subsequence.
  split; [assumption|]. intros Hasc.
  assert (Hasc' : ascending (filteredData timeRange now data))
    by (eapply subsequence_sorted; eassumption).
  split; [assumption|].
  rewrite formatData_dates. now apply ascending_dates.
Qed.

Lemma filteredData_order_witness :
  ascending (filteredData Range24h (1720000000000 + 50 * hour) sample)
  /\ StronglySorted dateLe
       (map pointDate
          (formatData Range24h (1720000000000 + 50 * hour) sample)).
Proof.
  apply (filteredData_order Range24h (1720000000000 + 50 * hour) sample).
  exact sample_ascending.
Defined.

(** Fifty hours after the first reading the last 24 hours hold two readings
    and the last 7 days all five. *)
Example sample_windows :
  map id (filteredData Range24h (1720000000000 + 50 * hour) sample) = ["d"; "e"]
  /\ map id (filteredData Range7d (1720000000000 + 50 * hour) sample)
     = ["a"; "b"; "c"; "d"; "e"].
Proof. split; reflexivity. Qed.

(** ** Malformed temperatures *)

Lemma scanDigits_no_digit (s : string) (acc : N) (count : nat) :
  match s with
  | String c _ => isDigit c = false
  | EmptyString => True
  end ->
  JS.scanDigits s acc count = (acc, count, s).
Proof.
  destruct s as [|c r]; simpl; [reflexivity|].
  unfold isDigit. now destruct (JS.digitValue c).
Qed.

Lemma scanUnsignedLiteral_none (u : string) :
  startsLiteral u = false -> JS.scanUnsignedLiteral u = None.
Proof.
  unfold startsLiteral, JS.scanUnsignedLiteral.
  intros H. apply orb_false_iff in H as [-> H].
  destruct u as [|c r].
  - reflexivity.
  - apply orb_false_iff in H as [Hc Hr].
    rewrite scanDigits_no_digit by exact Hc. simpl.
    destruct (c =? ".")%char; [|reflexivity].
    simpl in Hr. rewrite scanDigits_no_digit; [reflexivity|].
    destruct r; [exact I | exact Hr].
Qed.

Lemma parseFloat_nonNumeric (s : string) :
  nonNumeric s -> JS.parseFloat s = JS.NaN.
Proof.
  unfold nonNumeric, JS.parseFloat.
  destruct (JS.scanSign (JS.trimStart s)) as [sgn u]. simpl.
  intros H. now rewrite scanUnsignedLiteral_none.
Qed.

(** Rounding a non-negative mantissa never produces NaN, so a decimal
    literal never parses to NaN. *)
Section Rounding.
Variables prec emax : Z.

Lemma shr_1_nonneg (mrs : shr_record) : 0 <= shr_m mrs -> 0 <= shr_m (shr_1 mrs).
Proof.
  destruct mrs as [m r s]. simpl.
  destruct m as [|[p|p|]|[p|p|]]; simpl; lia.
Qed.

Lemma iter_pos_invariant {A : Type} (P : A -> Prop) (f : A -> A) :
  (forall x, P x -> P (f x)) -> forall p x, P x -> P (iter_pos f p x).
Proof.
  intros Hf. induction p as [p IH|p IH|]; intros x Hx; simpl; auto.
Qed.

Lemma shr_nonneg (mrs : shr_record) (e n : Z) :
  0 <= shr_m mrs -> 0 <= shr_m (fst (shr mrs e n)).
Proof.
  intros H. destruct n; simpl; try assumption.
  apply (iter_pos_invariant (fun x => 0 <= shr_m x)); [apply shr_1_nonneg | assumption].
Qed.

Lemma shr_fexp_nonneg (m e : Z) (l : location) :
  0 <= m -> 0 <= shr_m (fst (shr_fexp prec emax m e l)).
Proof.
  intros H. unfold shr_fexp. apply shr_nonneg.
  destruct l as [|[]]; assumption.
Qed.

Lemma round_nearest_even_nonneg (m : Z) (l : location) :
  0 <= m -> 0 <= round_nearest_even m l.
Proof.
  intros H. destruct l as [|[]]; simpl; try lia.
  destruct (Z.even m); lia.
Qed.

Lemma binary_round_aux_not_nan (s : bool) (m e : Z) (l : location) :
  0 <= m -> binary_round_aux prec emax s m e l <> S754_nan.
Proof.
  intros H. unfold binary_round_aux.
  pose proof (shr_fexp_nonneg m e l H) as H1.
  destruct (shr_fexp prec emax m e l) as [mrs' e']. simpl in H1.
  pose proof (shr_fexp_nonneg _ e' loc_Exact
                (round_nearest_even_nonneg _ (loc_of_shr_record mrs') H1)) as H2.
  destruct (shr_fexp prec emax _ e' loc_Exact) as [mrs'' e'']. simpl in H2.
  destruct (shr_m mrs'') as [|p|p]; [discriminate| |lia].
  destruct (e'' <=? emax - prec); discriminate.
Qed.

Lemma binary_round_not_nan (s : bool) (m : positive) (e : Z) :
  binary_round prec emax s m e <> S754_nan.
Proof.
  unfold binary_round. destruct (shl_align _ _ _) as [mz ez].
  apply binary_round_aux_not_nan. lia.
Qed.

End Rounding.

Lemma fromDecimal_not_NaN (s : bool) (m : N) (e : Z) :
  JS.fromDecimal s m e <> JS.NaN.
Proof.
  unfold JS.fromDecimal. destruct m as [|p]; [discriminate|].
  destruct e as [|k|k]; try apply binary_round_not_nan.
  unfold SFdiv_core_binary.
  set (m' := match _ - _ with Z0 => _ | Zpos _ => _ | Zneg _ => _ end).
  assert (Hm' : 0 <= m').
  { subst m'. destruct (_ - _); try lia. apply Z.shiftl_nonneg. lia. }
  pose proof (Z_div_mod m' (Z.pow_pos 10 k)) as Hdiv.
  destruct (Z.div_eucl m' (Z.pow_pos 10 k)) as [q r].
  apply binary_round_aux_not_nan.
  assert (Hpow : 0 < Z.pow_pos 10 k) by (rewrite Z.pow_pos_fold; apply Z.pow_pos_nonneg; lia).
  destruct Hdiv as [Hq Hr]; [lia|]. nia.
Qed.

(** A literal is read as soon as the string starts like one. *)
Lemma scanDigits_count (s : string) :
  forall acc count, (count <= snd (fst (JS.scanDigits s acc count)))%nat.
Proof.
  induction s as [|c r IH]; intros acc count; simpl; [lia|].
  destruct (JS.digitValue c); simpl; [|lia].
  specialize (IH (acc * 10 + n)%N (S count)). lia.
Qed.

Lemma scanDigits_digit (c : ascii) (r : string) (acc : N) (count : nat) :
  isDigit c = true ->
  (count < snd (fst (JS.scanDigits (String c r) acc count)))%nat.
Proof.
  unfold isDigit. simpl. destruct (JS.digitValue c); [|discriminate].
  intros _. pose proof (scanDigits_count r (acc * 10 + n)%N (S count)). lia.
Qed.

Lemma scanUnsignedLiteral_some (u : string) :
  startsLiteral u = true -> JS.scanUnsignedLiteral u <> None.
Proof.
  unfold startsLiteral, JS.scanUnsignedLiteral.
  destruct (prefix "Infinity" u); [discriminate|].
  destruct u as [|c r]; [discriminate|].
  intros H. simpl in H.
  destruct (isDigit c) eqn:Hc; simpl in H.
  - pose proof (scanDigits_digit c r 0%N 0%nat Hc) as Hn.
    destruct (JS.scanDigits (String c r) 0 0) as [[i ni] r1]. simpl in Hn.
    destruct ni as [|ni]; [lia|].
    destruct (JS.scanPoint r1) as [r2|]; [|discriminate].
    destruct (JS.scanDigits r2 i 0) as [[f nf] r3]. discriminate.
  - apply andb_true_iff in H as [Hp Hd].
    rewrite scanDigits_no_digit by exact Hc.
    unfold JS.scanPoint. rewrite Hp.
    destruct r as [|d r']; [discriminate|].
    pose proof (scanDigits_digit d r' 0%N 0%nat Hd) as Hn.
    destruct (JS.scanDigits (String d r') 0 0) as [[f nf] r3]. simpl in Hn.
    destruct nf; [lia | discriminate].
Qed.

(** [parseFloat] answers NaN on the strings with no numeric prefix, and on
    no other. *)
Lemma parseFloat_NaN_iff (s : string) :
  JS.parseFloat s = JS.NaN <-> nonNumeric s.
Proof.
  split; [|apply parseFloat_nonNumeric].
  unfold nonNumeric, JS.parseFloat.
  destruct (JS.scanSign (JS.trimStart s)) as [sgn u]. simpl.
  destruct (startsLiteral u) eqn:E; [|reflexivity].
  pose proof (scanUnsignedLiteral_some u E) as Hsome.
  destruct (JS.scanUnsignedLiteral u) as [[|m e]|]; [discriminate| |congruence].
  intros H. now apply fromDecimal_not_NaN in H.
Qed.






(** ** More on the latest reading and the lookup *)

Lemma sorted_before_last {A : Type} (R : A -> A -> Prop) (l : list A) (x : A) :
  StronglySorted R (l ++ [x]) -> forall y, In y l -> R y x.
Proof.
  induction l as [|a l IH]; simpl; intros Hs y Hy; [destruct Hy|].
  apply StronglySorted_inv in Hs as [Hs Ha].
  destruct Hy as [<- | Hy]; [|now apply IH].
  rewrite Forall_forall in Ha. apply Ha. apply in_or_app. right. now left.
Qed.

Lemma latestReading_split data latest :
  latestReading data = Some latest -> exists init, data = init ++ [latest].
Proof.
  intros Hl. destruct data as [|x xs] eqn:E; [discriminate|].
  rewrite <- E in *. assert (Hne : data <> []) by (rewrite E; discriminate).
  destruct (exists_last Hne) as (init & r & ->).
  rewrite latestReading_snoc in Hl. injection Hl as ->. now exists init.
Qed.

(** X1: on rows in ascending order the latest reading is the last row and
    no row is newer. *)
Theorem latest_is_newest :
  forall (data : list TemperatureReading) (latest : TemperatureReading),
    ascending data ->
    latestReading data = Some latest ->
    exists init,
      data = init ++ [latest]
      /\ forall r, In r init -> dateLe (timestamp r) (timestamp latest).
Proof.
  intros data latest Hasc Hl.
  destruct (latestReading_split data latest Hl) as [init ->].
  exists init. split; [reflexivity|].
  exact (sorted_before_last
           (fun a b => dateLe (timestamp a) (timestamp b)) init latest Hasc).
Qed.

Lemma latest_is_newest_witness :
  exists init,
    sample = init ++ [reading "e" (1720000000000 + 48 * hour) "21.0" "24.0"]
    /\ forall r, In r init ->
         dateLe (timestamp r)
           (timestamp (reading "e" (1720000000000 + 48 * hour) "21.0" "24.0")).
Proof.
  apply (latest_is_newest sample); [exact sample_ascending | reflexivity].
Defined.

Lemma distanceTo_instant (g t : Z) (r : TemperatureReading) :
  instant r = Some t -> distanceTo g r = Some (Z.abs (t - g)).
Proof. unfold distanceTo. now intros ->. Qed.

(** The lookup's reading is at least as near as any reading. *)
Lemma reading24hAgo_least (target : JS.Date) (g : Z)
  (data : list TemperatureReading) :
  JS.getTime target = Some g ->
  data <> [] ->
  Forall (fun r => exists t, instant r = Some t) data ->
  exists res d,
    reading24hAgo data target = Some res
    /\ In res data
    /\ distanceTo g res = Some d
    /\ forall r dr, In r data -> distanceTo g r = Some dr -> d <= dr.
Proof.
  intros Hg Hne Hvalid.
  destruct (reading24hAgo_first_minimum target g Hg data Hne)
    as (l1 & res & l2 & d & -> & Hres & Hd & H1 & H2).
  { eapply Forall_impl; [|exact Hvalid]. intros r. apply distanceTo_valid. }
  exists res, d. repeat split; try assumption.
  - apply in_or_app. right. now left.
  - intros r dr Hr Hdr. apply in_app_or in Hr as [Hr | [<- | Hr]].
    + destruct (H1 r Hr) as (d' & Hd' & Hlt). rewrite Hdr in Hd'.
      injection Hd' as <-. lia.
    + rewrite Hd in Hdr. injection Hdr as <-. lia.
    + destruct (H2 r Hr) as (d' & Hd' & Hle). rewrite Hdr in Hd'.
      now injection Hd' as <-.
Qed.

(** X2: when the latest reading lies at least 24 hours after the first
    instant a Date can hold, the reading the delta compares with is never
    older than 48 hours before the latest one, nor newer than it. *)
Theorem past_reading_within_two_days :
  forall (data : list TemperatureReading) (latest : TemperatureReading)
         (tl : Z),
    Forall (fun r => exists t, instant r = Some t) data ->
    latestReading data = Some latest ->
    instant latest = Some tl ->
    JS.inRange (tl - 24 * 60 * 60 * 1000) = true ->
    exists past tp,
      reading24hAgo data (twentyFourHoursAgo (timestamp latest)) = Some past
      /\ instant past = Some tp
      /\ tl - 48 * 60 * 60 * 1000 <= tp <= tl.
Proof.
  intros data latest tl Hvalid Hl Htl Hin.
  assert (Hne : data <> []) by (intros ->; discriminate).
  destruct (reading24hAgo_least _ _ data (target_of_latest _ _ Htl Hin)
              Hne Hvalid)
    as (res & d & Hres & HIn & Hd & Hleast).
  pose proof (Hleast latest _ (latestReading_In _ _ Hl)
                (distanceTo_instant _ _ _ Htl)) as Hle.
  unfold distanceTo in Hd. destruct (instant res) as [tp|] eqn:Etp;
    [|discriminate].
  simpl in Hd. injection Hd as <-.
  exists res, tp. repeat split; try assumption; lia.
Qed.

Lemma past_reading_within_two_days_witness :
  exists past tp,
    reading24hAgo sample
      (twentyFourHoursAgo
         (timestamp (reading "e" (1720000000000 + 48 * hour) "21.0" "24.0")))
    = Some past
    /\ instant past = Some tp
    /\ 1720000000000 + 48 * hour - 48 * 60 * 60 * 1000 <= tp
       <= 1720000000000 + 48 * hour.
Proof.
  apply (past_reading_within_two_days sample
           (reading "e" (1720000000000 + 48 * hour) "21.0" "24.0")).
  - repeat constructor; eexists; reflexivity.
  - reflexivity.
  - reflexivity.
  - reflexivity.
Defined.

(** X3: while the history is shorter than 24 hours (the oldest row is at or
    after latest - 24h), the lookup returns the oldest row. *)
Theorem short_history_compares_with_oldest :
  forall (first : TemperatureReading) (rest : list TemperatureReading)
         (latest : TemperatureReading) (t0 tl : Z),
    ascending (first :: rest) ->
    latestReading (first :: rest) = Some latest ->
    instant first = Some t0 ->
    instant latest = Some tl ->
    tl - 24 * 60 * 60 * 1000 <= t0 ->
    reading24hAgo (first :: rest) (twentyFourHoursAgo (timestamp latest))
    = Some first.
Proof.
  intros first rest latest t0 tl Hasc Hl Ht0 Htl Hshort.
  destruct (JS.inRange (tl - 24 * 60 * 60 * 1000)) eqn:Hin;
    [|now rewrite (invalid_target_keeps_first _ _
                     (target_of_latest_invalid _ _ Htl Hin))].
  pose proof (target_of_latest _ _ Htl Hin) as Hg.
  apply StronglySorted_inv in Hasc as [_ Hfirst].
  assert (Hlater : forall r, In r (first :: rest) ->
                     exists t, instant r = Some t /\ t0 <= t).
  { intros r [<- | Hr]; [exists t0; split; [assumption | lia]|].
    rewrite Forall_forall in Hfirst. specialize (Hfirst r Hr).
    unfold dateLe in Hfirst. unfold instant in *. rewrite Ht0 in Hfirst.
    destruct (JS.getTime (timestamp r)) as [t|]; [eauto | contradiction]. }
  assert (Hvalid : Forall (fun r => exists d,
                      distanceTo (tl - 24 * 60 * 60 * 1000) r = Some d)
                     (first :: rest)).
  { apply Forall_forall. intros r Hr. destruct (Hlater r Hr) as (t & Ht & _).
    apply distanceTo_valid. eauto. }
  unfold reading24hAgo. rewrite at_index_first. f_equal.
  destruct (scan_first_minimum _ _ Hg _ Hvalid first _
              (distanceTo_instant _ _ _ Ht0))
    as [[E _] | (l1 & l2 & d & E & Hd & Hlt & _)]; [exact E|].
  exfalso.
  assert (HIn : In (fold_left
                      (closer (twentyFourHoursAgo (timestamp latest)))
                      (first :: rest) first) (first :: rest)).
  { rewrite E at 2. apply in_or_app. right. now left. }
  destruct (Hlater _ HIn) as (t & Ht & Hle).
  rewrite (distanceTo_instant _ _ _ Ht) in Hd. injection Hd as <-. lia.
Qed.

(** Three readings within a day. *)
Lemma short_history_compares_with_oldest_witness :
  reading24hAgo
    [ reading "a" 1720000000000 "18.5" "23.0";
      reading "b" (1720000000000 + 6 * hour) "27.0" "24.5";
      reading "c" (1720000000000 + 12 * hour) "19.0" "23.5" ]
    (twentyFourHoursAgo
       (timestamp (reading "c" (1720000000000 + 12 * hour) "19.0" "23.5")))
  = Some (reading "a" 1720000000000 "18.5" "23.0").
Proof.
  apply (short_history_compares_with_oldest _ _ _
           1720000000000 (1720000000000 + 12 * hour)).
  - repeat (constructor;
            [|repeat constructor; unfold dateLe; simpl; unfold hour; lia]).
    constructor.
  - reflexivity.
  - reflexivity.
  - reflexivity.
  - unfold hour. lia.
Defined.

Lemma sub_diag_finite (x : JS.number) :
  JS.isFinite x = true -> JS.sub x x = JS.zero.
Proof.
  destruct x as [s|s| |s m e]; simpl; try discriminate; intros _.
  - now destruct s.
  - unfold JS.sub, SFsub. now rewrite Z.sub_diag.
Qed.

(** X4: after a gap of more than 48 hours before the latest reading, the
    lookup returns the latest reading itself, so the delta compares it with
    itself: 0 for a finite temperature. *)
Theorem gap_compares_latest_with_itself :
  forall (init : list TemperatureReading) (latest : TemperatureReading)
         (tl : Z) (isIndoor : bool),
    instant latest = Some tl ->
    (forall r, In r init ->
       exists t, instant r = Some t /\ t < tl - 48 * 60 * 60 * 1000) ->
    reading24hAgo (init ++ [latest]) (twentyFourHoursAgo (timestamp latest))
    = Some latest
    /\ (JS.isFinite (JS.parseFloat (selected isIndoor latest)) = true ->
        get24hDifference (init ++ [latest]) (selected isIndoor latest) isIndoor
        = Some JS.zero).
Proof.
  intros init latest tl isIndoor Htl Hgap.
  assert (Hres : reading24hAgo (init ++ [latest])
                   (twentyFourHoursAgo (timestamp latest)) = Some latest).
  { destruct init as [|x init'] eqn:Einit.
    { simpl. unfold reading24hAgo. rewrite at_index_first. simpl.
      now destruct (closer_cases (twentyFourHoursAgo (timestamp latest))
                      latest latest) as [-> | ->]. }
    rewrite <- Einit in *.
    assert (Hin : JS.inRange (tl - 24 * 60 * 60 * 1000) = true).
    { destruct (Hgap x) as (t & Ht & Hlt); [rewrite Einit; now left|].
      apply instant_inRange, inRange_bounds in Ht.
      apply instant_inRange, inRange_bounds in Htl.
      apply inRange_bounds. lia. }
    assert (Hne : init ++ [latest] <> []) by now destruct init.
    assert (Hvalid : Forall (fun r => exists t, instant r = Some t)
                       (init ++ [latest])).
    { apply Forall_forall. intros r Hr.
      apply in_app_or in Hr as [Hr | [<- | []]]; [|eauto].
      destruct (Hgap r Hr) as (t & Ht & _). eauto. }
    destruct (reading24hAgo_least _ _ _ (target_of_latest _ _ Htl Hin)
                Hne Hvalid)
      as (res & d & Hres & HIn & Hd & Hleast).
    assert (Hlatest : In latest (init ++ [latest]))
      by (apply in_or_app; right; now left).
    pose proof (Hleast latest _ Hlatest (distanceTo_instant _ _ _ Htl)) as Hle.
    apply in_app_or in HIn as [HIn | [<- | []]]; [|exact Hres].
    destruct (Hgap res HIn) as (t & Ht & Hlt).
    rewrite (distanceTo_instant _ _ _ Ht) in Hd. injection Hd as <-. lia. }
  split; [exact Hres|]. intros Hfin.
  rewrite (get24hDifference_unfold _ latest latest _ _
             (latestReading_snoc init latest) Hres).
  now rewrite sub_diag_finite.
Qed.

(** The sensor was silent for three days. *)
Lemma gap_compares_latest_with_itself_witness :
  reading24hAgo
    ([reading "a" 1720000000000 "18.5" "23.0"]
       ++ [reading "z" (1720000000000 + 72 * hour) "25.0" "26.5"])
    (twentyFourHoursAgo
       (timestamp (reading "z" (1720000000000 + 72 * hour) "25.0" "26.5")))
  = Some (reading "z" (1720000000000 + 72 * hour) "25.0" "26.5")
  /\ (JS.isFinite
        (JS.parseFloat
           (selected true
              (reading "z" (1720000000000 + 72 * hour) "25.0" "26.5")))
      = true ->
      get24hDifference
        ([reading "a" 1720000000000 "18.5" "23.0"]
           ++ [reading "z" (1720000000000 + 72 * hour) "25.0" "26.5"])
        (selected true (reading "z" (1720000000000 + 72 * hour) "25.0" "26.5"))
        true
      = Some JS.zero).
Proof.
  apply (gap_compares_latest_with_itself
           [reading "a" 1720000000000 "18.5" "23.0"]
           (reading "z" (1720000000000 + 72 * hour) "25.0" "26.5")
           (1720000000000 + 72 * hour) true).
  - reflexivity.
  - intros r [<- | []]. exists 1720000000000. split; [reflexivity|].
    unfold hour. lia.
Defined.

(** ** More on the delta and its annotation *)

Lemma eqb_finite_sub_zero (a b : JS.number) :
  JS.isFinite a = true -> JS.eqb a b = true ->
  exists s, JS.sub a b = S754_zero s.
Proof.
  unfold JS.eqb, SFeqb.
  destruct a as [sa|sa| |sa ma ea], b as [sb|sb| |sb mb eb];
    simpl; try discriminate; intros _ H;
    try solve [destruct sa, sb; simpl in *; (discriminate || eauto)].
  assert (sa = sb /\ ea = eb /\ ma = mb) as (-> & -> & ->).
  { rewrite Pos.compare_cont_spec in H. simpl in H.
    destruct sa, sb; try discriminate;
      destruct (Z.compare_spec ea eb) as [->| |]; try discriminate;
      destruct (Pos.compare_spec ma mb) as [->| |]; try discriminate; auto. }
  exists false. unfold JS.sub, SFsub. now rewrite Z.sub_diag.
Qed.

(** X5: when the past and the current temperature are the same finite
    number, the annotation reads "0.0" followed directly by "menos". *)
Theorem unchanged_temperature_annotation :
  forall (data : list TemperatureReading) (latest past : TemperatureReading)
         (isIndoor : bool),
    latestReading data = Some latest ->
    reading24hAgo data (twentyFourHoursAgo (timestamp latest)) = Some past ->
    (1 < List.length data)%nat ->
    JS.isFinite (JS.parseFloat (selected isIndoor past)) = true ->
    JS.eqb (JS.parseFloat (selected isIndoor past))
           (JS.parseFloat (selected isIndoor latest)) = true ->
    deltaCell data isIndoor = Delta "#7FB9D8" "0.0" "menos" " que ayer".
Proof.
  intros data latest past isIndoor Hl Hp Hlen Hfin Heq.
  destruct (eqb_finite_sub_zero _ _ Hfin Heq) as [s Hs].
  unfold deltaCell. rewrite Hl.
  rewrite (get24hDifference_unfold data latest past _ _ Hl Hp), Hs.
  destruct (Z.ltb_spec 1 (Z.of_nat (List.length data))); [|lia].
  now destruct s.
Qed.

Lemma unchanged_temperature_annotation_witness :
  deltaCell
    [ reading "a" 1720000000000 "18.5" "23.0";
      reading "b" (1720000000000 + 24 * hour) "21.0" "23.00" ] true
  = Delta "#7FB9D8" "0.0" "menos" " que ayer".
Proof.
  apply (unchanged_temperature_annotation _
           (reading "b" (1720000000000 + 24 * hour) "21.0" "23.00")
           (reading "a" 1720000000000 "18.5" "23.0") true).
  - reflexivity.
  - reflexivity.
  - simpl. lia.
  - reflexivity.
  - reflexivity.
Defined.

(** X6: when the temperature dropped (the difference the page computes is
    positive), the amount is rendered with a minus sign and is followed
    directly by "menos". *)
Theorem drop_shows_signed_amount :
  forall (data : list TemperatureReading) (latest : TemperatureReading)
         (isIndoor : bool) (diff : JS.number),
    latestReading data = Some latest ->
    (1 < List.length data)%nat ->
    get24hDifference data (selected isIndoor latest) isIndoor = Some diff ->
    JS.gt diff JS.zero = true ->
    exists digits,
      deltaCell data isIndoor
      = Delta "#7FB9D8" (String "-" digits) "menos" " que ayer".
Proof.
  intros data latest isIndoor diff Hl Hlen Hdiff Hpos.
  unfold deltaCell. rewrite Hl, Hdiff.
  destruct (Z.ltb_spec 1 (Z.of_nat (List.length data))); [|lia].
  unfold JS.gt, SFltb in Hpos.
  destruct diff as [s|s| |s m e]; simpl in Hpos; try discriminate.
  - destruct s; [discriminate|]. now exists "Infinity"%string.
  - destruct s; [discriminate|]. simpl. eauto.
Qed.

Lemma drop_shows_signed_amount_witness :
  exists digits,
    deltaCell
      [ reading "a" 1720000000000 "18.5" "23.5";
        reading "b" (1720000000000 + 24 * hour) "21.0" "22.0" ] true
    = Delta "#7FB9D8" (String "-" digits) "menos" " que ayer".
Proof.
  apply (drop_shows_signed_amount _
           (reading "b" (1720000000000 + 24 * hour) "21.0" "22.0") true
           (JS.parseFloat "1.5")).
  - reflexivity.
  - simpl. lia.
  - reflexivity.
  - reflexivity.
Defined.

Example drop_annotation_text :
  textContent
    (deltaCell
       [ reading "a" 1720000000000 "18.5" "23.5";
         reading "b" (1720000000000 + 24 * hour) "21.0" "22.0" ] true)
  = "-1.5menos que ayer"%string.
Proof. reflexivity. Qed.

(** *** The two sign conventions *)

Lemma binary_round_aux_negative (m e : Z) (l : location) :
  binary_round_aux JS.prec JS.emax true m e l
  = SFopp (binary_round_aux JS.prec JS.emax false m e l).
Proof.
  unfold binary_round_aux.
  destruct (shr_fexp JS.prec JS.emax m e l) as [mrs' e'].
  destruct (shr_fexp JS.prec JS.emax _ e' loc_Exact) as [mrs'' e''].
  destruct (shr_m mrs''); try reflexivity.
  now destruct (e'' <=? JS.emax - JS.prec).
Qed.

Lemma SFopp_involutive_aux (x : spec_float) : SFopp (SFopp x) = x.
Proof. destruct x as [s|s| |s m e]; simpl; now rewrite ?negb_involutive. Qed.

Lemma binary_normalize_opp (z e : Z) :
  z <> 0 ->
  binary_normalize JS.prec JS.emax (- z) e false
  = SFopp (binary_normalize JS.prec JS.emax z e false).
Proof.
  intros Hz. destruct z as [|p|p]; [congruence| |]; simpl;
    unfold binary_round; destruct (shl_align _ _ _) as [mz ez];
    rewrite binary_round_aux_negative; [reflexivity|].
  now rewrite SFopp_involutive_aux.
Qed.

(** Swapping the operands of a subtraction negates the result, unless both
    results are zeros. *)
Lemma sub_swap (a b : JS.number) :
  JS.sub b a = SFopp (JS.sub a b)
  \/ exists s s', JS.sub a b = S754_zero s /\ JS.sub b a = S754_zero s'.
Proof.
  unfold JS.sub.
  destruct a as [sa|sa| |sa ma ea], b as [sb|sb| |sb mb eb];
    try solve [destruct sa, sb; simpl;
               first [left; reflexivity | right; eauto]];
    try solve [simpl; auto];
    try solve [destruct sa; simpl; rewrite ?negb_involutive; auto];
    try solve [destruct sb; simpl; rewrite ?negb_involutive; auto].
  unfold SFsub. rewrite (Z.min_comm eb ea).
  set (A := cond_Zopp sa (Z.pos (fst (shl_align ma ea (Z.min ea eb))))).
  set (B := cond_Zopp sb (Z.pos (fst (shl_align mb eb (Z.min ea eb))))).
  replace (B - A) with (- (A - B)) by lia.
  destruct (Z.eq_dec (A - B) 0) as [E|E].
  - right. rewrite E. simpl. eauto.
  - left. now apply binary_normalize_opp.
Qed.

Lemma abs_opp (x : JS.number) : JS.abs (SFopp x) = JS.abs x.
Proof. now destruct x. Qed.

Lemma gt_zero_opp (x : JS.number) : JS.gt (SFopp x) JS.zero = JS.lt x JS.zero.
Proof. destruct x as [s|s| |s m e]; try reflexivity; now destruct s. Qed.

(** X7: the page and the memoised iteration agree on every input: the
    magnitude the memoised one returns is the absolute value of the page's
    difference, and it reports an increase exactly when the page's
    difference is negative. *)
Theorem iterations_agree :
  forall (data : list TemperatureReading) (currentTemp : string)
         (isIndoor : bool),
    match get24hDifference data currentTemp isIndoor,
          Memoised.get24hDifference data currentTemp isIndoor with
    | Some diff, Some m =>
        Memoised.absoluteDiff m = JS.abs diff
        /\ Memoised.isIncrease m = JS.lt diff JS.zero
    | None, None => True
    | _, _ => False
    end.
Proof.
  intros data currentTemp isIndoor.
  unfold get24hDifference, Memoised.get24hDifference.
  destruct (latestReading data) as [latest|]; [|exact I].
  destruct (reading24hAgo data _) as [past|]; [|exact I]. simpl.
  destruct (sub_swap (JS.parseFloat (selected isIndoor past))
              (JS.parseFloat currentTemp)) as [-> | (s & s' & -> & ->)].
  - split; [apply abs_opp | apply gt_zero_opp].
  - split; reflexivity.
Qed.

(** ** More on the chart data *)

Lemma filter_all {A : Type} (f : A -> bool) (l : list A) :
  (forall x, In x l -> f x = true) -> filter f l = l.
Proof.
  induction l as [|x l IH]; simpl; intros H; [reflexivity|].
  rewrite (H x) by now left. f_equal. apply IH. intros y Hy. apply H. now right.
Qed.

Lemma filter_none {A : Type} (f : A -> bool) (l : list A) :
  (forall x, In x l -> f x = false) -> filter f l = [].
Proof.
  induction l as [|x l IH]; simpl; intros H; [reflexivity|].
  rewrite (H x) by now left. apply IH. intros y Hy. apply H. now right.
Qed.

(** X8: on rows in ascending order the filter drops a prefix: the chart
    shows the last rows of the sequence, none skipped in between. *)
Theorem filteredData_suffix :
  forall (timeRange : TimeRange) (now : Z) (data : list TemperatureReading),
    ascending data ->
    exists k, filteredData timeRange now data = skipn k data.
Proof.
  intros timeRange now data. unfold filteredData.
  induction 1 as [|x l Hs [k IH] Hx].
  - now exists 0%nat.
  - simpl.
    destruct (JS.dateGe (timestamp x) (cutoffTime timeRange now)) eqn:E.
    + exists 0%nat. simpl. f_equal. apply filter_all. intros y Hy.
      rewrite Forall_forall in Hx. specialize (Hx y Hy).
      apply dateGe_cutoff in E as (t & Ht & Hle). apply dateGe_cutoff.
      unfold dateLe in Hx. unfold instant in *. rewrite Ht in Hx.
      destruct (JS.getTime (timestamp y)) as [ty|]; [|contradiction].
      exists ty. split; [reflexivity | lia].
    + exists (S k). exact IH.
Qed.

Lemma filteredData_suffix_witness :
  exists k,
    filteredData Range24h (1720000000000 + 50 * hour) sample = skipn k sample.
Proof. apply (filteredData_suffix _ _ sample). exact sample_ascending. Defined.

(** X9: on rows in ascending order, when the latest reading is older than
    the window the chart gets no point at all, although the latest values
    are still displayed. *)
Theorem stale_data_empty_chart :
  forall (timeRange : TimeRange) (now : Z) (data : list TemperatureReading)
         (latest : TemperatureReading) (tl : Z),
    ascending data ->
    latestReading data = Some latest ->
    instant latest = Some tl ->
    tl < now - window timeRange ->
    formatData timeRange now data = []
    /\ indoorValue data = JS.toFixed1 (JS.parseFloat (indoor_temp latest))
    /\ outdoorValue data = JS.toFixed1 (JS.parseFloat (outdoor_temp latest)).
Proof.
  intros timeRange now data latest tl Hasc Hl Htl Hold.
  split; [|unfold indoorValue, outdoorValue; now rewrite Hl].
  unfold formatData, filteredData. rewrite filter_none; [reflexivity|].
  intros r Hr.
  destruct (JS.dateGe (timestamp r) (cutoffTime timeRange now)) eqn:E;
    [|reflexivity].
  exfalso. apply dateGe_cutoff in E as (t & Ht & Hle).
  destruct (latestReading_split _ _ Hl) as [init ->].
  apply in_app_or in Hr as [Hr | [<- | []]].
  - pose proof (sorted_before_last _ init latest Hasc r Hr) as Hrl.
    simpl in Hrl. unfold dateLe in Hrl. unfold instant in *.
    rewrite Ht, Htl in Hrl. lia.
  - rewrite Htl in Ht. injection Ht as <-. lia.
Qed.

(** Ten days after the last reading of the sample. *)
Lemma stale_data_empty_chart_witness :
  formatData Range7d (1720000000000 + 288 * hour) sample = []
  /\ indoorValue sample
     = JS.toFixed1
         (JS.parseFloat
            (indoor_temp (reading "e" (1720000000000 + 48 * hour) "21.0" "24.0")))
  /\ outdoorValue sample
     = JS.toFixed1
         (JS.parseFloat
            (outdoor_temp (reading "e" (1720000000000 + 48 * hour) "21.0" "24.0"))).
Proof.
  apply (stale_data_empty_chart Range7d (1720000000000 + 288 * hour) sample
           (reading "e" (1720000000000 + 48 * hour) "21.0" "24.0")
           (1720000000000 + 48 * hour)).
  - exact sample_ascending.
  - reflexivity.
  - reflexivity.
  - unfold hour. simpl. lia.
Defined.

(** X10: as the clock advances the selection only loses readings. *)
Theorem filteredData_shrinks :
  forall (timeRange : TimeRange) (now now' : Z)
         (data : list TemperatureReading),
    now <= now' ->
    subsequence (filteredData timeRange now' data)
                (filteredData timeRange now data).
Proof.
  intros timeRange now now' data Hle.
  apply filter_weaker_subsequence. intros r.
  rewrite !dateGe_cutoff. intros (t & Ht & Hcut). exists t.
  split; [assumption | lia].
Qed.

Lemma filteredData_shrinks_witness :
  subsequence
    (filteredData Range24h (1720000000000 + 60 * hour) sample)
    (filteredData Range24h (1720000000000 + 50 * hour) sample).
Proof.
  apply (filteredData_shrinks Range24h). unfold hour. lia.
Defined.

(** X11: when the latest reading lies in the window and the two
    evaluations of [formatData] count the same points, the tick of the time
    axis is the label of the latest reading. *)
Theorem axisTick_latest :
  forall (timeRange : TimeRange) (now1 now2 : Z)
         (data : list TemperatureReading) (latest : TemperatureReading)
         (tl : Z),
    latestReading data = Some latest ->
    instant latest = Some tl ->
    now1 - window timeRange <= tl ->
    List.length (formatData timeRange now2 data)
    = List.length (formatData timeRange now1 data) ->
    axisTick timeRange now1 now2 data
    = Some (JS.toLocaleString (timestamp latest) "es-ES").
Proof.
  intros timeRange now1 now2 data latest tl Hl Htl Hin Hlen.
  unfold axisTick. rewrite Hlen.
  destruct (latestReading_split _ _ Hl) as [init ->].
  unfold formatData, filteredData. rewrite filter_app. simpl.
  assert (E : JS.dateGe (timestamp latest) (cutoffTime timeRange now1) = true)
    by (apply dateGe_cutoff; eauto).
  rewrite E, map_app. simpl.
  now rewrite at_index_last.
Qed.

Lemma axisTick_latest_witness :
  axisTick Range24h (1720000000000 + 50 * hour) (1720000000000 + 50 * hour)
    sample
  = Some (JS.toLocaleString
            (timestamp (reading "e" (1720000000000 + 48 * hour) "21.0" "24.0"))
            "es-ES").
Proof.
  apply (axisTick_latest Range24h _ _ sample _ (1720000000000 + 48 * hour)).
  - reflexivity.
  - reflexivity.
  - unfold hour. simpl. lia.
  - reflexivity.
Defined.

(** With no point in the window there is no tick. *)
Lemma axisTick_none timeRange now1 now2 data :
  formatData timeRange now1 data = [] ->
  axisTick timeRange now1 now2 data = None.
Proof. intros E. unfold axisTick. rewrite E. now rewrite at_index_nil. Qed.

(** X12: every point of the chart comes from a reading of the window, with
    that reading's two temperatures parsed; a value of the chart is NaN
    exactly when the stored text has no numeric prefix. *)
Theorem chart_point_values :
  forall (timeRange : TimeRange) (now : Z) (data : list TemperatureReading)
         (p : ChartPoint),
    In p (formatData timeRange now data) ->
    exists r,
      In r data
      /\ (exists t, instant r = Some t /\ now - window timeRange <= t)
      /\ pointDate p = timestamp r
      /\ outdoor p = JS.parseFloat (outdoor_temp r)
      /\ indoor p = JS.parseFloat (indoor_temp r)
      /\ (outdoor p = JS.NaN <-> nonNumeric (outdoor_temp r))
      /\ (indoor p = JS.NaN <-> nonNumeric (indoor_temp r)).
Proof.
  intros timeRange now data p Hp.
  unfold formatData in Hp. apply in_map_iff in Hp as (r & <- & Hr).
  apply filter_In in Hr as [Hr Hge]. apply dateGe_cutoff in Hge.
  exists r. repeat split; try assumption; simpl;
    try (apply parseFloat_NaN_iff); now apply parseFloat_NaN_iff.
Qed.

Lemma chart_point_values_witness :
  exists r,
    In r sample
    /\ (exists t,
          instant r = Some t
          /\ 1720000000000 + 50 * hour - window Range24h <= t)
    /\ pointDate
         (chartPoint "es-ES"
            (reading "e" (1720000000000 + 48 * hour) "21.0" "24.0"))
       = timestamp r
    /\ outdoor
         (chartPoint "es-ES"
            (reading "e" (1720000000000 + 48 * hour) "21.0" "24.0"))
       = JS.parseFloat (outdoor_temp r)
    /\ indoor
         (chartPoint "es-ES"
            (reading "e" (1720000000000 + 48 * hour) "21.0" "24.0"))
       = JS.parseFloat (indoor_temp r)
    /\ (outdoor
          (chartPoint "es-ES"
             (reading "e" (1720000000000 + 48 * hour) "21.0" "24.0"))
        = JS.NaN <-> nonNumeric (outdoor_temp r))
    /\ (indoor
          (chartPoint "es-ES"
             (reading "e" (1720000000000 + 48 * hour) "21.0" "24.0"))
        = JS.NaN <-> nonNumeric (indoor_temp r)).
Proof.
  apply (chart_point_values Range24h (1720000000000 + 50 * hour) sample).
  simpl. right. left. reflexivity.
Defined.

(** ** Loading the readings *)

(** X13: whatever the client and its query do, the fetch ends with
    [loading] false; the readings replace [data] only on a response without
    error (an absent array counting as empty) and then nothing is logged; in
    every other case [data] is left as it was and exactly one error is
    logged. *)
Theorem fetch_outcome :
  forall (supabase : option Loading.QueryResult) (s : Loading.State),
    Loading.loading (Loading.fetchTemperatureData supabase s) = false
    /\ match supabase with
       | Some (Loading.Resolved readings None) =>
           Loading.data (Loading.fetchTemperatureData supabase s)
           = match readings with Some l => l | None => [] end
           /\ Loading.console (Loading.fetchTemperatureData supabase s)
              = Loading.console s
       | _ =>
           Loading.data (Loading.fetchTemperatureData supabase s)
           = Loading.data s
           /\ exists entry,
                Loading.console (Loading.fetchTemperatureData supabase s)
                = Loading.console s ++ [entry]
       end.
Proof.
  intros [[readings [error|]|reason]|] s; simpl; repeat split; eauto.
Qed.

(** X14: from the initial state, a fetch that brings no row (no client, an
    exception, an error, an absent or empty array) leaves the page out of
    its loading screen with the placeholders, the "open" recommendation, no
    annotation in either cell and an empty chart. *)
Theorem failed_fetch_shows_placeholders :
  forall (supabase : option Loading.QueryResult) (timeRange : TimeRange)
         (now : Z),
    (forall x l, supabase <> Some (Loading.Resolved (Some (x :: l)) None)) ->
    Loading.loading (Loading.fetchTemperatureData supabase Loading.initial)
    = false
    /\ shouldCloseWindows
         (Loading.data (Loading.fetchTemperatureData supabase Loading.initial))
       = false
    /\ indoorValue
         (Loading.data (Loading.fetchTemperatureData supabase Loading.initial))
       = "--"%string
    /\ outdoorValue
         (Loading.data (Loading.fetchTemperatureData supabase Loading.initial))
       = "--"%string
    /\ deltaCell
         (Loading.data (Loading.fetchTemperatureData supabase Loading.initial))
         true
       = NoAnnotation
    /\ deltaCell
         (Loading.data (Loading.fetchTemperatureData supabase Loading.initial))
         false
       = NoAnnotation
    /\ formatData timeRange now
         (Loading.data (Loading.fetchTemperatureData supabase Loading.initial))
       = [].
Proof.
  intros [[[[|x l]|] [error|]|reason]|] timeRange now Hfail;
    try (now repeat split).
  now destruct (Hfail x l).
Qed.

Lemma failed_fetch_shows_placeholders_witness :
  Loading.loading
    (Loading.fetchTemperatureData
       (Some (Loading.Rejected "Failed to fetch")) Loading.initial)
  = false
  /\ shouldCloseWindows
       (Loading.data
          (Loading.fetchTemperatureData
             (Some (Loading.Rejected "Failed to fetch")) Loading.initial))
     = false
  /\ indoorValue
       (Loading.data
          (Loading.fetchTemperatureData
             (Some (Loading.Rejected "Failed to fetch")) Loading.initial))
     = "--"%string
  /\ outdoorValue
       (Loading.data
          (Loading.fetchTemperatureData
             (Some (Loading.Rejected "Failed to fetch")) Loading.initial))
     = "--"%string
  /\ deltaCell
       (Loading.data
          (Loading.fetchTemperatureData
             (Some (Loading.Rejected "Failed to fetch")) Loading.initial))
       true
     = NoAnnotation
  /\ deltaCell
       (Loading.data
          (Loading.fetchTemperatureData
             (Some (Loading.Rejected "Failed to fetch")) Loading.initial))
       false
     = NoAnnotation
  /\ formatData Range24h 1720000000000
       (Loading.data
          (Loading.fetchTemperatureData
             (Some (Loading.Rejected "Failed to fetch")) Loading.initial))
     = [].
Proof.
  apply (failed_fetch_shows_placeholders
           (Some (Loading.Rejected "Failed to fetch")) Range24h 1720000000000).
  discriminate.
Defined.

(** ** The cat *)

Lemma miau_invariant (events : list Miau.Event) :
  forall s s',
    (Miau.showMiau s = true -> (0 < Miau.pending s)%nat) ->
    Miau.run events s = Some s' ->
    (Miau.showMiau s' = true -> (0 < Miau.pending s')%nat)
    /\ (Miau.pending s' + Miau.timeouts events
        = Miau.pending s + Miau.clicks events)%nat.
Proof.
  unfold Miau.timeouts, Miau.clicks.
  induction events as [|[|] rest IH]; intros s s' Hinv Hrun; simpl in *.
  - injection Hrun as <-. split; [assumption | lia].
  - destruct (IH (Miau.handleCatClick s) s') as [H1 H2];
      [simpl; lia | assumption |].
    split; [assumption|]. simpl in H2. lia.
  - unfold Miau.timeout in Hrun. destruct (Miau.pending s) as [|n] eqn:En;
      [discriminate|].
    destruct (IH {| Miau.showMiau := false; Miau.pending := n |} s')
      as [H1 H2]; [simpl; discriminate | assumption |].
    split; [assumption|]. simpl in H2. lia.
Qed.

(** X15: after any sequence of clicks and timer expiries, a visible bubble
    always has a timer armed to hide it, and the armed timers are the clicks
    not yet answered by an expiry: once every timer has fired the bubble is
    hidden. *)
Theorem miau_never_stuck :
  forall (events : list Miau.Event) (s : Miau.State),
    Miau.run events Miau.initial = Some s ->
    (Miau.showMiau s = true -> (0 < Miau.pending s)%nat)
    /\ (Miau.pending s + Miau.timeouts events = Miau.clicks events)%nat
    /\ (Miau.timeouts events = Miau.clicks events -> Miau.showMiau s = false).
Proof.
  intros events s Hrun.
  destruct (miau_invariant events Miau.initial s) as [H1 H2];
    [discriminate | assumption |].
  simpl in H2. repeat split; try assumption.
  intros Hall. destruct (Miau.showMiau s); [|reflexivity].
  specialize (H1 eq_refl). lia.
Qed.

Lemma miau_never_stuck_witness :
  (Miau.showMiau {| Miau.showMiau := false; Miau.pending := 0 |} = true ->
   (0 < Miau.pending {| Miau.showMiau := false; Miau.pending := 0 |})%nat)
  /\ (Miau.pending {| Miau.showMiau := false; Miau.pending := 0 |}
      + Miau.timeouts [Miau.Click; Miau.Click; Miau.Timeout; Miau.Timeout]
      = Miau.clicks [Miau.Click; Miau.Click; Miau.Timeout; Miau.Timeout])%nat
  /\ (Miau.timeouts [Miau.Click; Miau.Click; Miau.Timeout; Miau.Timeout]
      = Miau.clicks [Miau.Click; Miau.Click; Miau.Timeout; Miau.Timeout] ->
      Miau.showMiau {| Miau.showMiau := false; Miau.pending := 0 |} = false).
Proof.
  apply (miau_never_stuck
           [Miau.Click; Miau.Click; Miau.Timeout; Miau.Timeout]).
  reflexivity.
Defined.

(** ** The recommendation on malformed input *)

Lemma gt_NaN_l (x : JS.number) : JS.gt JS.NaN x = false.
Proof. now destruct x. Qed.

Lemma gt_NaN_r (x : JS.number) : JS.gt x JS.NaN = false.
Proof. reflexivity. Qed.

(** X16: when either temperature of the latest reading has no numeric
    prefix, the comparison involves NaN and the recommendation is "open". *)
Theorem malformed_latest_recommends_open :
  forall (data : list TemperatureReading) (latest : TemperatureReading),
    latestReading data = Some latest ->
    nonNumeric (outdoor_temp latest) \/ nonNumeric (indoor_temp latest) ->
    shouldCloseWindows data = false.
Proof.
  intros data latest Hl Hbad. unfold shouldCloseWindows. rewrite Hl.
  destruct Hbad as [Hbad | Hbad]; rewrite (parseFloat_nonNumeric _ Hbad).
  - apply gt_NaN_l.
  - apply gt_NaN_r.
Qed.

Lemma malformed_latest_recommends_open_witness :
  shouldCloseWindows [reading "w" 1720000000000 "n/a" "24.0"] = false.
Proof.
  apply (malformed_latest_recommends_open _
           (reading "w" 1720000000000 "n/a" "24.0")).
  - reflexivity.
  - left. reflexivity.
Defined.
